(** * CodeFix: the similarity-matching engine and its records

    A shallow embedding of [ai_engine.py] (class [BugSolutionAI]) and
    [models.py] (class [BugReport]).

    Modelling conventions.
    - Python floats and numpy scalars are idealised as real numbers
      (Stdlib's [R]): no rounding, no infinities, no NaN.
    - A Python dict with string keys is a [gmap string pyval]; a Python
      list or a numpy array is a [list]; [None] is [PNone] or the [None]
      of [option].
    - A call that may raise returns a [result]; the methods of the engine
      run in a state-and-exception monad over the fields of [self]. The
      exceptions of the model are instances of Python's [Exception], the
      class the handlers of the source catch.
    - Console output ([print]) is not modelled. *)

From Stdlib Require Import Reals Lra ZArith Ascii.
From stdpp Require Import base option list strings gmap.

Open Scope string_scope.

(** ** Python values and exceptions *)

#[warnings="-register-all"]
Inductive pyval : Type :=
  | PNone
  | PBool (b : bool)
  | PInt (n : Z)
  | PFloat (x : R)
  | PStr (s : string)
  | PList (l : list pyval)
  | PDict (d : list (string * pyval)).

Inductive exn : Type :=
  | KeyError (key : string)
  | IndexError
  | ValueError
  | TypeError
  | AttributeError (attr : string)
  | OSError
  | ValidationError (fields : list string)
  | OtherError (msg : string).

Inductive result (A : Type) : Type :=
  | Ok (a : A)
  | Raise (e : exn).
Arguments Ok {A} a.
Arguments Raise {A} e.

Definition rbind {A B} (r : result A) (k : A -> result B) : result B :=
  match r with
  | Ok a => k a
  | Raise e => Raise e
  end.

(** [d[key]] on a dict. *)
Definition getitem (d : gmap string pyval) (key : string) : result pyval :=
  match d !! key with
  | Some v => Ok v
  | None => Raise (KeyError key)
  end.

(** [d.get(key, default)]. *)
Definition dict_get (d : gmap string pyval) (key : string) (dflt : pyval) : pyval :=
  match d !! key with
  | Some v => v
  | None => dflt
  end.

(** [l[i]] on a list or an array, for an index that is not negative. *)
Definition index {A} (l : list A) (i : nat) : result A :=
  match l !! i with
  | Some a => Ok a
  | None => Raise IndexError
  end.

(** ** Numeric helpers *)

Open Scope R_scope.

(** Python's [max(a, b)]: the first argument unless the second is greater. *)
Definition py_max (a b : R) : R := if Rgt_dec b a then b else a.

(** Python's [min(a, b)]: the first argument unless the second is smaller. *)
Definition py_min (a b : R) : R := if Rlt_dec b a then b else a.

(** [np.argmax] on a one-dimensional array: a left-to-right scan that keeps
    the first position of the largest value; it raises on an empty array. *)
Fixpoint argmax_scan (best_idx : nat) (best : R) (i : nat) (l : list R) : nat :=
  match l with
  | [] => best_idx
  | x :: rest =>
      if Rlt_dec best x then argmax_scan i x (S i) rest
      else argmax_scan best_idx best (S i) rest
  end.

Definition np_argmax (l : list R) : result nat :=
  match l with
  | [] => Raise ValueError
  | x :: rest => Ok (argmax_scan 0%nat x 1%nat rest)
  end.

(** ** models.py: BugReport *)

Definition datetime := Z.

Record BugReport : Type := mkBugReport {
  id : option Z;
  title : string;
  description : string;
  steps_to_reproduce : option string;
  expected_behavior : option string;
  actual_behavior : option string;
  code_snippet : option string;
  language : option string;
  created_at : option datetime;
  resolved : bool
}.

(** ** ai_engine.py: confidence *)

(** The logistic curve of [_calculate_confidence]. *)
Definition sigmoid (base_confidence : R) : R :=
  1 / (1 + exp (-10 * (base_confidence - 0.5))).

(** [BugSolutionAI._calculate_confidence]; [float(similarity_score)] is
    the identity on reals. *)
Definition _calculate_confidence (similarity_score : R) (bug_report : BugReport) : R :=
  let base_confidence := similarity_score in
  let adjusted_confidence := 1 / (1 + exp (-10 * (base_confidence - 0.5))) in
  py_min (py_max adjusted_confidence 0.0) 1.0.

(** The accept test of [find_solution], [confidence > 0.5]. *)
Definition accepts (similarity_score : R) (bug_report : BugReport) : bool :=
  if Rgt_dec (_calculate_confidence similarity_score bug_report) 0.5 then true else false.

(** The accept test in the words of the specification: compare the raw
    similarity to 0.5. *)
Definition accepts_direct (similarity_score : R) : bool :=
  if Rgt_dec similarity_score 0.5 then true else false.


(** ** ai_engine.py: the engine *)

(** Modelled from the spec: the class [BugSolution], which [ai_engine.py]
    and [main.py] import from [models] and no source file defines. Its
    fields are the keyword arguments of the one constructor call, in
    [_format_solution]: the title, solution text, example code, source
    citation and tags of a knowledge-base entry, with the confidence and
    the raw similarity score. The values are stored as they are given. *)
Record BugSolution : Type := mkBugSolution {
  sol_title : pyval;
  sol_solution : pyval;
  sol_code_example : pyval;
  sol_source : pyval;
  sol_confidence : R;
  sol_tags : pyval;
  sol_similarity_score : R
}.

Definition embedding := list R.

(** A loaded [SentenceTransformer]: its [encode] method maps a list of
    texts to an array with one embedding per row, or raises. *)
Record Model : Type := mkModel {
  encode : list pyval -> result (list embedding)
}.

(** The fields of [self]. *)
Record BugSolutionAI : Type := mkEngine {
  model : option Model;
  examples : list (gmap string pyval);
  example_embeddings : option (list embedding);
  model_loaded : bool
}.

(** State and exceptions: a method maps [self] to its outcome and the
    new [self]; an exception keeps the writes made before it. *)
Definition M (A : Type) : Type := BugSolutionAI -> result A * BugSolutionAI.

Definition ret {A} (a : A) : M A := fun self => (Ok a, self).

Definition bind {A B} (m : M A) (k : A -> M B) : M B :=
  fun self =>
    match m self with
    | (Ok a, self') => k a self'
    | (Raise e, self') => (Raise e, self')
    end.

Definition lift {A} (r : result A) : M A := fun self => (r, self).

Definition read {A} (field : BugSolutionAI -> A) : M A :=
  fun self => (Ok (field self), self).

(** [try: body except Exception as e: handler e]. *)
Definition try_except {A} (body : M A) (handler : exn -> M A) : M A :=
  fun self =>
    match body self with
    | (Ok a, self') => (Ok a, self')
    | (Raise e, self') => handler e self'
    end.

Notation "'let!' x ':=' m 'in' k" := (bind m (fun x => k))
  (at level 10, x pattern, m at level 100, k at level 200).

Definition set_model (v : option Model) : M unit :=
  fun self => (Ok tt, mkEngine v (examples self) (example_embeddings self) (model_loaded self)).

Definition set_examples (v : list (gmap string pyval)) : M unit :=
  fun self => (Ok tt, mkEngine (model self) v (example_embeddings self) (model_loaded self)).

Definition set_example_embeddings (v : option (list embedding)) : M unit :=
  fun self => (Ok tt, mkEngine (model self) (examples self) v (model_loaded self)).

Definition set_model_loaded (v : bool) : M unit :=
  fun self => (Ok tt, mkEngine (model self) (examples self) (example_embeddings self) v).

(** [self.model.encode(texts)]; on [None] the attribute is missing. *)
Definition model_encode (m : option Model) (texts : list pyval) : result (list embedding) :=
  match m with
  | Some mdl => encode mdl texts
  | None => Raise (AttributeError "encode")
  end.

(** [[f(x) for x in l]], stopping at the first exception. *)
Fixpoint comprehension {A B} (f : A -> result B) (l : list A) : result (list B) :=
  match l with
  | [] => Ok []
  | x :: rest =>
      rbind (f x) (fun y => rbind (comprehension f rest) (fun ys => Ok (y :: ys)))
  end.

Definition dict (entries : list (string * pyval)) : gmap string pyval :=
  list_to_map entries.

Definition strs (l : list string) : pyval := PList (PStr <$> l).

(** [BugSolutionAI._get_default_examples]. *)
Definition _get_default_examples : list (gmap string pyval) :=
  [ dict
      [ ("title", PStr "Fix React State Mutation");
        ("description", PStr "React component not updating when state changes. Direct mutation of state objects/arrays doesn't trigger re-renders.");
        ("solution", PStr "React doesn't detect direct state mutations. You need to create new objects/arrays to trigger re-renders. Use the spread operator or create new instances.");
        ("code_example", PStr "// ❌ Direct mutation
todos.push(item);
setTodos(todos);

// ✅ New array
setTodos([...todos, item]);");
        ("source", PStr "React Documentation - State Updates");
        ("tags", strs ["react"; "state"; "mutation"; "hooks"]);
        ("keywords", strs ["state"; "update"; "mutation"; "re-render"; "useState"]) ];
    dict
      [ ("title", PStr "Fix useEffect Infinite Loop");
        ("description", PStr "useEffect hook running infinitely, causing performance issues and potential crashes.");
        ("solution", PStr "useEffect runs when dependencies change. If you're setting state inside useEffect without proper dependencies, it can create infinite loops. Add missing dependencies or use useCallback/useMemo.");
        ("code_example", PStr "// ❌ Infinite loop
useEffect(() => {
  setCount(count + 1);
}, []);

// ✅ Proper dependency
useEffect(() => {
  setCount(prev => prev + 1);
}, []);");
        ("source", PStr "React Hooks Documentation");
        ("tags", strs ["react"; "useEffect"; "hooks"; "infinite-loop"]);
        ("keywords", strs ["useEffect"; "infinite"; "loop"; "dependency"; "hooks"]) ];
    dict
      [ ("title", PStr "Fix Event Handler Binding");
        ("description", PStr "Event handlers not working properly, especially in loops or when passing functions as props.");
        ("solution", PStr "Event handlers need proper binding or should be defined as arrow functions to preserve 'this' context. Use arrow functions or bind methods properly.");
        ("code_example", PStr "// ❌ Loses context
<button onClick={this.handleClick}>Click</button>

// ✅ Arrow function preserves context
<button onClick={() => this.handleClick()}>Click</button>");
        ("source", PStr "React Event Handling Documentation");
        ("tags", strs ["react"; "events"; "binding"; "handlers"]);
        ("keywords", strs ["event"; "handler"; "binding"; "onClick"; "context"]) ] ].

(** [BugSolutionAI._format_solution]: a missing key raises [KeyError],
    except [tags], which defaults to the empty list. *)
Definition _format_solution (example : gmap string pyval) (confidence similarity_score : R)
  : result BugSolution :=
  rbind (getitem example "title") (fun title =>
  rbind (getitem example "solution") (fun solution =>
  rbind (getitem example "code_example") (fun code_example =>
  rbind (getitem example "source") (fun source =>
  Ok (mkBugSolution title solution code_example source confidence
        (dict_get example "tags" (PList [])) similarity_score))))).

Section Engine.

(** The collaborators outside the repository. *)

(** [SentenceTransformer(name)]: loading the pretrained model. *)
Variable SentenceTransformer : string -> result Model.

(** [data/examples.json]: [None] when the file does not exist, else the
    outcome of opening and parsing it. *)
Variable examples_json : option (result (list (gmap string pyval))).

(** Creating [data/] and [np.save] to [data/embeddings.npy]. *)
Variable mkdir_data : result unit.
Variable np_save : list embedding -> result unit.

(** sklearn's [cosine_similarity(X, Y)]: after the validation of the
    two arrays, the matrix of the cosine of every row of [X] with every
    row of [Y]. *)
Variable pairwise_ok : list embedding -> list embedding -> bool.
Variable cosine : embedding -> embedding -> R.

Definition cosine_similarity (X Y : list embedding) : result (list (list R)) :=
  if pairwise_ok X Y then Ok ((fun x => cosine x <$> Y) <$> X)
  else Raise ValueError.

(** [BugSolutionAI._load_examples]. *)
Definition _load_examples : M unit :=
  match examples_json with
  | Some loaded => let! parsed := lift loaded in set_examples parsed
  | None => set_examples _get_default_examples
  end.

(** [BugSolutionAI._load_model]. *)
Definition _load_model : M unit :=
  try_except
    (let! m := lift (SentenceTransformer "all-MiniLM-L6-v2") in
     let! _ := set_model (Some m) in
     set_model_loaded true)
    (fun e => set_model_loaded false).

(** [BugSolutionAI._prepare_embeddings]. *)
Definition _prepare_embeddings : M unit :=
  let! loaded := read model_loaded in
  let! exs := read examples in
  if negb loaded || bool_decide (exs = []) then ret tt
  else
    try_except
      (let! exs := read examples in
       let! example_texts :=
         lift (comprehension (fun example => getitem example "description") exs) in
       let! m := read model in
       let! embeddings := lift (model_encode m example_texts) in
       let! _ := lift mkdir_data in
       let! _ := lift (np_save embeddings) in
       set_example_embeddings (Some embeddings))
      (fun e => set_example_embeddings None).

(** [BugSolutionAI.__init__]. *)
Definition blank : BugSolutionAI := mkEngine None [] None false.

Definition __init__ : M unit :=
  let! _ := _load_examples in
  let! _ := _load_model in
  _prepare_embeddings.

(** [BugSolutionAI.find_solution]. *)
Definition find_solution (bug_report : BugReport) : M (option BugSolution) :=
  let! loaded := read model_loaded in
  let! cached := read example_embeddings in
  if negb loaded || bool_decide (cached = None) then ret None
  else
    try_except
      (let! m := read model in
       let! bug_embedding := lift (model_encode m [PStr (description bug_report)]) in
       let! cached := read example_embeddings in
       let! similarities :=
         lift (match cached with
               | Some embs => cosine_similarity bug_embedding embs
               | None => Raise ValueError
               end) in
       let! similarity_scores := lift (index similarities 0) in
       let! best_match_idx := lift (np_argmax similarity_scores) in
       let! best_similarity := lift (index similarity_scores best_match_idx) in
       let confidence := _calculate_confidence best_similarity bug_report in
       if Rgt_dec confidence 0.5 then
         let! exs := read examples in
         let! example := lift (index exs best_match_idx) in
         let! formatted := lift (_format_solution example confidence best_similarity) in
         ret (Some formatted)
       else ret None)
      (fun e => ret None).

(** [BugSolutionAI.update_embeddings]. *)
Definition update_embeddings : M unit :=
  let! loaded := read model_loaded in
  if loaded then _prepare_embeddings else ret tt.

(** [BugSolutionAI.get_examples]. *)
Definition get_examples : M (list (gmap string pyval)) := read examples.

(** [BugSolutionAI.get_model_status]. *)
Definition get_model_status : M (gmap string pyval) :=
  let! loaded := read model_loaded in
  let! exs := read examples in
  let! cached := read example_embeddings in
  let! m := read model in
  ret (dict
         [ ("model_loaded", PBool loaded);
           ("examples_count", PInt (Z.of_nat (length exs)));
           ("embeddings_ready", PBool (bool_decide (cached <> None)));
           ("model_name", match m with
                          | Some _ => PStr "all-MiniLM-L6-v2"
                          | None => PNone
                          end) ]).

(** The public operations, and a run of them on one engine. *)
Inductive operation : Type :=
  | FindSolution (bug_report : BugReport)
  | UpdateEmbeddings
  | GetExamples
  | GetModelStatus.

Definition perform (op : operation) (self : BugSolutionAI) : BugSolutionAI :=
  match op with
  | FindSolution bug_report => snd (find_solution bug_report self)
  | UpdateEmbeddings => snd (update_embeddings self)
  | GetExamples => snd (get_examples self)
  | GetModelStatus => snd (get_model_status self)
  end.

Definition perform_all (ops : list operation) (self : BugSolutionAI) : BugSolutionAI :=
  foldl (fun s op => perform op s) self ops.

(** The first part of the [try] block of [find_solution], up to the
    best match: its index and its similarity. *)
Definition best_match (bug_report : BugReport) (self : BugSolutionAI) : result (nat * R) :=
  rbind (model_encode (model self) [PStr (description bug_report)]) (fun bug_embedding =>
  rbind (match example_embeddings self with
         | Some embs => cosine_similarity bug_embedding embs
         | None => Raise ValueError
         end) (fun similarities =>
  rbind (index similarities 0) (fun similarity_scores =>
  rbind (np_argmax similarity_scores) (fun best_match_idx =>
  rbind (index similarity_scores best_match_idx) (fun best_similarity =>
  Ok (best_match_idx, best_similarity)))))).

End Engine.

(** The guard of [find_solution]: the model is not loaded or no
    embeddings are cached. *)
Definition unavailable (self : BugSolutionAI) : bool :=
  negb (model_loaded self) || bool_decide (example_embeddings self = None).

(** ** models.py: constructing a BugReport *)

Section Construction.

(** pydantic's validators for the annotated types, and the clock read
    by the [default_factory] of [created_at]. *)
Variable int_validator : pyval -> option Z.
Variable str_validator : pyval -> option string.
Variable datetime_validator : pyval -> option datetime.
Variable bool_validator : pyval -> option bool.
Variable utcnow : datetime.

(** [Optional[T]]: [None] is accepted as it is. *)
Definition optional {T} (validator : pyval -> option T) (v : pyval) : option (option T) :=
  match v with
  | PNone => Some None
  | _ => Some <$> validator v
  end.

(** One field of the model: the validated keyword argument, or the
    default when the keyword is absent; [Field(...)] has no default.
    [None] is a validation error on the field. *)
Definition Field {T} (validator : pyval -> option T) (default : option T)
    (kwargs : gmap string pyval) (name : string) : option T :=
  match kwargs !! name with
  | Some v => validator v
  | None => default
  end.

Definition error_of {T} (name : string) (validated : option T) : list string :=
  match validated with
  | Some _ => []
  | None => [name]
  end.

(** [BugReport(...)] with keyword arguments: every field is validated, the errors are
    collected, and keywords that name no field are ignored. *)
Definition BugReport_init (kwargs : gmap string pyval) : result BugReport :=
  let v_id := Field (optional int_validator) (Some None) kwargs "id" in
  let v_title := Field str_validator None kwargs "title" in
  let v_description := Field str_validator None kwargs "description" in
  let v_steps := Field (optional str_validator) (Some None) kwargs "steps_to_reproduce" in
  let v_expected := Field (optional str_validator) (Some None) kwargs "expected_behavior" in
  let v_actual := Field (optional str_validator) (Some None) kwargs "actual_behavior" in
  let v_code := Field (optional str_validator) (Some None) kwargs "code_snippet" in
  let v_language := Field (optional str_validator) (Some None) kwargs "language" in
  let v_created := Field (optional datetime_validator) (Some (Some utcnow)) kwargs "created_at" in
  let v_resolved := Field bool_validator (Some false) kwargs "resolved" in
  match v_id, v_title, v_description, v_steps, v_expected,
        v_actual, v_code, v_language, v_created, v_resolved with
  | Some i, Some t, Some d, Some s, Some e, Some a, Some c, Some l, Some cr, Some r =>
      Ok (mkBugReport i t d s e a c l cr r)
  | _, _, _, _, _, _, _, _, _, _ =>
      Raise (ValidationError
               (error_of "id" v_id ++ error_of "title" v_title
                ++ error_of "description" v_description
                ++ error_of "steps_to_reproduce" v_steps
                ++ error_of "expected_behavior" v_expected
                ++ error_of "actual_behavior" v_actual
                ++ error_of "code_snippet" v_code
                ++ error_of "language" v_language
                ++ error_of "created_at" v_created
                ++ error_of "resolved" v_resolved))
  end.

End Construction.

(** ** Concrete collaborators and inputs for the examples *)

Module Fixture.

(** Validators that accept exactly the values of the annotated type. *)
Definition strict_int (v : pyval) : option Z :=
  match v with PInt n => Some n | _ => None end.
Definition strict_str (v : pyval) : option string :=
  match v with PStr s => Some s | _ => None end.
Definition strict_bool (v : pyval) : option bool :=
  match v with PBool b => Some b | _ => None end.

Definition report (title description : string) : BugReport :=
  mkBugReport None title description None None None None None (Some 0%Z) false.

Definition crash_report : BugReport :=
  report "App crashes on login"
         "The app crashes when I try to log in with a valid account.".

(** The same description under another title, with a code snippet, a
    language and the resolved flag. *)
Definition crash_report_detailed : BugReport :=
  mkBugReport (Some 7%Z) "Login is broken"
    "The app crashes when I try to log in with a valid account."
    None None None (Some "const result = user && user.token;")
    (Some "JavaScript") None true.

(** A model with one-dimensional embeddings chosen by the first letter
    of the text. *)
Definition letter_embedding (text : pyval) : embedding :=
  match text with
  | PStr (String c _) =>
      if Ascii.eqb c "R"%char then [0.2]
      else if Ascii.eqb c "u"%char || Ascii.eqb c "E"%char || Ascii.eqb c "C"%char then [0.9]
      else [1]
  | _ => [1]
  end.

Definition letter_model : Model :=
  mkModel (fun texts => Ok (letter_embedding <$> texts)).

(** A kernel on one-dimensional vectors: the product of the entries. *)
Definition product (x y : embedding) : R := hd 0 x * hd 0 y.

Definition always_ok (X Y : list embedding) : bool := true.

(** The engine after start-up without data/examples.json: the default
    examples, with embeddings that score 0.2, 0.9 and 0.9 against the
    query embedding [1]. *)
Definition engine : BugSolutionAI :=
  mkEngine (Some letter_model) _get_default_examples
           (Some [[0.2]; [0.9]; [0.9]]) true.

(** The engine after start-up on a data/examples.json whose only
    example has no [code_example]. *)
Definition incomplete_example : gmap string pyval :=
  dict [ ("title", PStr "Fix stale closure");
         ("description", PStr "Callback reads an old value of the state.");
         ("solution", PStr "Use the functional form of the setter.");
         ("source", PStr "React Hooks FAQ") ].

Definition incomplete_engine : BugSolutionAI :=
  mkEngine (Some letter_model) [incomplete_example] (Some [[0.9]]) true.

End Fixture.

(** ** The import of the models module *)

(** The names that models.py binds at its top level: the four names it
    imports and the one class it defines. *)
Definition models_namespace : list string :=
  ["Optional"; "BaseModel"; "Field"; "datetime"; "BugReport"].

Inductive import_outcome : Type :=
  | Imported (names : list string)
  | ImportError (name : string).

(** [from module import n1, n2, ...] on the names a module binds: the
    names are looked up in order and the first one that the module does
    not bind raises [ImportError]. *)
Fixpoint import_from (namespace names : list string) : import_outcome :=
  match names with
  | [] => Imported []
  | name :: rest =>
      if bool_decide (name ∈ namespace) then
        match import_from namespace rest with
        | Imported bound => Imported (name :: bound)
        | ImportError missing => ImportError missing
        end
      else ImportError name
  end.

(** Line 15 of ai_engine.py and line 34 of main.py:
    [from models import BugReport, BugSolution]. *)
Definition import_models : import_outcome :=
  import_from models_namespace ["BugReport"; "BugSolution"].

(** ** ai_engine.py: states of the engine *)

(** What start-up and the public operations keep: the loaded flag is set
    exactly when a model is stored, and embeddings are cached only with a
    loaded model and a list of examples that is not empty and whose
    entries all have a description. *)
Definition consistent (self : BugSolutionAI) : Prop :=
  (model_loaded self = true <-> model self <> None) /\
  (example_embeddings self <> None ->
   model_loaded self = true /\ examples self <> [] /\
   Forall (fun example => example !! "description" <> None) (examples self)).

(** An example that [_format_solution] formats without a [KeyError]. *)
Definition formattable (example : gmap string pyval) : Prop :=
  example !! "title" <> None /\ example !! "solution" <> None /\
  example !! "code_example" <> None /\ example !! "source" <> None.

(** ** main.py: the API *)

(** The exceptions of the handlers: FastAPI's [HTTPException], itself an
    [Exception], beside the exceptions of the engine and of the system
    probes. *)
Inductive exception : Type :=
  | HTTPException (status_code : Z) (detail : string)
  | Other (e : exn).

Inductive outcome (A : Type) : Type :=
  | Return (a : A)
  | Throw (e : exception).
Arguments Return {A} a.
Arguments Throw {A} e.

(** The module-level state: the three counters and the engine. *)
Record App : Type := mkApp {
  request_count : Z;
  error_count : Z;
  analyze_bug_count : Z;
  ai_engine : BugSolutionAI
}.

(** What a handler reads from the clock and from psutil during one
    request: [datetime.now().isoformat()], [time.time() - app_start_time],
    [psutil.virtual_memory()] as its percent and available fields,
    [psutil.cpu_percent()] and [psutil.disk_usage('/').percent]. *)
Record Readings : Type := mkReadings {
  now_isoformat : string;
  uptime : R;
  virtual_memory : result (R * R);
  cpu_percent : result R;
  disk_usage : result R
}.

Definition H (A : Type) : Type := App -> outcome A * App.

Definition h_ret {A} (a : A) : H A := fun app => (Return a, app).

Definition h_bind {A B} (m : H A) (k : A -> H B) : H B :=
  fun app =>
    match m app with
    | (Return a, app') => k a app'
    | (Throw e, app') => (Throw e, app')
    end.

Definition h_raise {A} (e : exception) : H A := fun app => (Throw e, app).

Definition h_lift {A} (r : result A) : H A :=
  fun app =>
    match r with
    | Ok a => (Return a, app)
    | Raise e => (Throw (Other e), app)
    end.

Definition h_read {A} (global : App -> A) : H A :=
  fun app => (Return (global app), app).

Definition h_try {A} (body : H A) (handler : exception -> H A) : H A :=
  fun app =>
    match body app with
    | (Return a, app') => (Return a, app')
    | (Throw e, app') => handler e app'
    end.

Notation "'let*' x ':=' m 'in' k" := (h_bind m (fun x => k))
  (at level 10, x pattern, m at level 100, k at level 200).

(** [request_count += 1] and its two siblings. *)
Definition incr_request_count : H unit :=
  fun app => (Return tt, mkApp (request_count app + 1) (error_count app)
                           (analyze_bug_count app) (ai_engine app)).

Definition incr_error_count : H unit :=
  fun app => (Return tt, mkApp (request_count app) (error_count app + 1)
                           (analyze_bug_count app) (ai_engine app)).

Definition incr_analyze_bug_count : H unit :=
  fun app => (Return tt, mkApp (request_count app) (error_count app)
                           (analyze_bug_count app + 1) (ai_engine app)).

(** A method call on the global [ai_engine]. *)
Definition on_engine {A} (method : M A) : H A :=
  fun app =>
    match method (ai_engine app) with
    | (Ok a, engine') =>
        (Return a, mkApp (request_count app) (error_count app)
                     (analyze_bug_count app) engine')
    | (Raise e, engine') =>
        (Throw (Other e), mkApp (request_count app) (error_count app)
                            (analyze_bug_count app) engine')
    end.

Definition gtb (a b : R) : bool := if Rgt_dec a b then true else false.

Section Api.

(** sklearn's [cosine_similarity], as for the engine; Python's
    [round(x, ndigits)] and [str(e)]. *)
Variable pairwise_ok : list embedding -> list embedding -> bool.
Variable cosine : embedding -> embedding -> R.
Variable round_ : R -> Z -> R.
Variable str_ : exception -> string.

(** [root]. *)
Definition root : H (gmap string pyval) :=
  h_ret (dict
    [ ("message", PStr "CodeFix API is running! 🐛→✅");
      ("version", PStr "1.0.0");
      ("docs", PStr "/docs");
      ("health", PStr "/health");
      ("metrics", PStr "/metrics");
      ("endpoints", PDict
         [ ("analyze_bug", PStr "POST /analyze-bug");
           ("health_check", PStr "GET /health");
           ("metrics", PStr "GET /metrics") ]) ]).

(** [health_check]. *)
Definition health_check (env : Readings) : H (gmap string pyval) :=
  let* _ := incr_request_count in
  h_try
    (let current_time := now_isoformat env in
     let uptime := uptime env in
     let* memory_usage := h_lift (virtual_memory env) in
     let* cpu_usage := h_lift (cpu_percent env) in
     let* requests := h_read request_count in
     let* errors := h_read error_count in
     let* analyses := h_read analyze_bug_count in
     let health_status := dict
       [ ("status", PStr "healthy");
         ("timestamp", PStr current_time);
         ("uptime_seconds", PFloat (round_ uptime 2));
         ("version", PStr "1.0.0");
         ("system", PDict
            [ ("memory_usage_percent", PFloat (fst memory_usage));
              ("memory_available_mb",
               PFloat (round_ (snd memory_usage / (1024 * 1024)) 2));
              ("cpu_usage_percent", PFloat cpu_usage) ]);
         ("api", PDict
            [ ("total_requests", PInt requests);
              ("error_count", PInt errors);
              ("analyze_requests", PInt analyses) ]) ] in
     if gtb (fst memory_usage) 90 || gtb cpu_usage 95 then
       let warnings :=
         ((if gtb (fst memory_usage) 90 then [PStr "High memory usage"] else [])
          ++ (if gtb cpu_usage 95 then [PStr "High CPU usage"] else []))%list in
       h_ret (<["warnings" := PList warnings]>
                (<["status" := PStr "degraded"]> health_status))
     else h_ret health_status)
    (fun e =>
       let* _ := incr_error_count in
       h_raise (HTTPException 500 ("Health check failed: " +:+ str_ e))).

(** [get_metrics]. *)
Definition get_metrics (env : Readings) : H (gmap string pyval) :=
  let* _ := incr_request_count in
  let uptime := uptime env in
  let* requests := h_read request_count in
  let* analyses := h_read analyze_bug_count in
  let* errors := h_read error_count in
  let* memory_usage := h_lift (virtual_memory env) in
  let* cpu_usage := h_lift (cpu_percent env) in
  let* disk := h_lift (disk_usage env) in
  h_ret (dict
    [ ("service", PStr "codefix-api");
      ("version", PStr "1.0.0");
      ("timestamp", PStr (now_isoformat env));
      ("uptime", PDict
         [ ("seconds", PFloat (round_ uptime 2));
           ("minutes", PFloat (round_ (uptime / 60) 2));
           ("hours", PFloat (round_ (uptime / 3600) 2)) ]);
      ("requests", PDict
         [ ("total", PInt requests);
           ("analyze_bug", PInt analyses);
           ("errors", PInt errors);
           ("success_rate",
            PFloat (round_ (IZR (requests - errors) / IZR (Z.max requests 1) * 100) 2)) ]);
      ("system", PDict
         [ ("memory_usage_percent", PFloat (fst memory_usage));
           ("cpu_usage_percent", PFloat cpu_usage);
           ("disk_usage_percent", PFloat disk) ]);
      ("performance", PDict
         [ ("avg_requests_per_minute",
            PFloat (round_ (IZR requests / py_max (uptime / 60) 1) 2));
           ("error_rate_percent",
            PFloat (round_ (IZR errors / IZR (Z.max requests 1) * 100) 2)) ]) ]).

(** [analyze_bug]: the 404 is raised inside the [try], whose second
    handler catches every [Exception]. *)
Definition analyze_bug (bug_report : BugReport) : H BugSolution :=
  let* _ := incr_request_count in
  let* _ := incr_analyze_bug_count in
  h_try
    (let* solution := on_engine (find_solution pairwise_ok cosine bug_report) in
     match solution with
     | None =>
         h_raise (HTTPException 404
           "No confident solution found for this bug type. Try providing more details about the issue.")
     | Some found => h_ret found
     end)
    (fun e =>
       match e with
       | Other (ValidationError _) =>
           let* _ := incr_error_count in
           h_raise (HTTPException 422 ("Validation error: " +:+ str_ e))
       | _ =>
           let* _ := incr_error_count in
           h_raise (HTTPException 500
             "Internal server error occurred while analyzing the bug report")
       end).

(** The requests the API serves, and the state after serving some. *)
Inductive request : Type :=
  | GetRoot
  | GetHealth (env : Readings)
  | GetMetrics (env : Readings)
  | PostAnalyzeBug (bug_report : BugReport).

Definition serve (req : request) (app : App) : App :=
  match req with
  | GetRoot => snd (root app)
  | GetHealth env => snd (health_check env app)
  | GetMetrics env => snd (get_metrics env app)
  | PostAnalyzeBug bug_report => snd (analyze_bug bug_report app)
  end.

Definition serve_all (reqs : list request) (app : App) : App :=
  foldl (fun a req => serve req a) app reqs.

End Api.

(** The state when the module has been imported: the counters at zero
    and the engine as [BugSolutionAI()] left it. *)
Definition started (engine : BugSolutionAI) : App := mkApp 0 0 0 engine.

(** The requests that a handler counts ([root] counts nothing), the
    analysis requests among them, and the requests whose handler has an
    [except] clause that counts an error. *)
Definition counted (req : request) : bool :=
  match req with
  | GetRoot => false
  | _ => true
  end.

Definition is_analysis (req : request) : bool :=
  match req with
  | PostAnalyzeBug _ => true
  | _ => false
  end.

Definition may_count_error (req : request) : bool :=
  match req with
  | GetHealth _ | PostAnalyzeBug _ => true
  | _ => false
  end.

(** ** frontend/demo.py *)

(** [d.get(key, default)] on a decoded JSON value. *)
Definition json_get (d : pyval) (key : string) (dflt : pyval) : result pyval :=
  match d with
  | PDict items =>
      Ok (match list_find (fun item => bool_decide (fst item = key)) items with
          | Some (_, (_, v)) => v
          | None => dflt
          end)
  | _ => Raise (AttributeError "get")
  end.

(** The [bug_data] that [main] posts for a submitted form; no request is
    made without a title and a description. *)
Definition bug_data (title description code_snippet tech_stack : string)
  : option (gmap string pyval) :=
  if bool_decide (title = "") || bool_decide (description = "") then None
  else Some (dict
    [ ("title", PStr title);
      ("description", PStr description);
      ("code_snippet", if bool_decide (code_snippet = "") then PNone
                       else PStr code_snippet);
      ("language", PStr tech_stack);
      ("tech_stack", PStr tech_stack) ]).

(** The values that the "API Performance" columns of [main] read from the
    decoded body of /metrics: total requests, error count, analysis
    requests and average response time. *)
Definition metrics_columns (metrics_data : gmap string pyval)
  : result (pyval * pyval * pyval * pyval) :=
  rbind (json_get (dict_get metrics_data "api" (PDict [])) "total_requests" (PInt 0))
    (fun total =>
  rbind (json_get (dict_get metrics_data "api" (PDict [])) "error_count" (PInt 0))
    (fun errors =>
  rbind (json_get (dict_get metrics_data "api" (PDict [])) "analyze_requests" (PInt 0))
    (fun analyses =>
  rbind (json_get (dict_get metrics_data "performance" (PDict []))
           "avg_response_time_ms" (PInt 0))
    (fun avg_time => Ok (total, errors, analyses, avg_time))))).

(** The values that the "System Status" columns of [main] read from the
    decoded body of /health: status, uptime and total requests. *)
Definition health_columns (health_data : gmap string pyval)
  : result (pyval * pyval * pyval) :=
  rbind (json_get (dict_get health_data "api" (PDict [])) "total_requests" (PInt 0))
    (fun total =>
  Ok (dict_get health_data "status" (PStr "Unknown"),
      dict_get health_data "uptime_seconds" (PInt 0), total)).

(** ** Concrete readings and helpers for the API examples *)

Module Probe.

Definition calm : Readings :=
  mkReadings "2024-01-01T12:00:00" 120 (Ok (42.5, 8589934592)) (Ok 10) (Ok 55).

Definition busy : Readings :=
  mkReadings "2024-01-01T12:00:00" 120 (Ok (95, 1048576)) (Ok 10) (Ok 55).

Definition blind : Readings :=
  mkReadings "2024-01-01T12:00:00" 120 (Raise OSError) (Ok 10) (Ok 55).

(** Stand-ins for [round] and [str]. *)
Definition unrounded (x : R) (ndigits : Z) : R := x.
Definition text (e : exception) : string := "error".

Definition offline (name : string) : result Model := Raise (OtherError "offline").

(** The engine after a start-up in which the model loads and the
    embeddings cannot be saved to disk. *)
Definition unsaved_engine : BugSolutionAI :=
  mkEngine (Some Fixture.letter_model) _get_default_examples None true.

End Probe.

(** ** Facts about the confidence *)

Lemma py_max_Rmax (a b : R) : py_max a b = Rmax a b.
Proof.
  unfold py_max, Rmax.
  destruct (Rgt_dec b a), (Rle_dec a b); lra.
Qed.

Lemma py_min_Rmin (a b : R) : py_min a b = Rmin a b.
Proof.
  unfold py_min, Rmin.
  destruct (Rlt_dec b a), (Rle_dec a b); lra.
Qed.

Lemma sigmoid_denominator_gt_1 (s : R) : 1 < 1 + exp (-10 * (s - 0.5)).
Proof. pose proof (exp_pos (-10 * (s - 0.5))). lra. Qed.

Lemma sigmoid_open_unit (s : R) : 0 < sigmoid s < 1.
Proof.
  unfold sigmoid.
  pose proof (sigmoid_denominator_gt_1 s) as Hd.
  split.
  - apply Rdiv_lt_0_compat; lra.
  - apply (Rmult_lt_reg_r (1 + exp (-10 * (s - 0.5)))); [lra|].
    unfold Rdiv. rewrite Rmult_assoc, Rinv_l by lra. lra.
Qed.

Lemma _calculate_confidence_sigmoid (s : R) (r : BugReport) :
  _calculate_confidence s r = sigmoid s.
Proof.
  pose proof (sigmoid_open_unit s) as [H0 H1].
  unfold _calculate_confidence. fold (sigmoid s).
  unfold py_min, py_max.
  destruct (Rgt_dec 0.0 (sigmoid s)) as [Hg|Hg]; [lra|].
  destruct (Rlt_dec 1.0 (sigmoid s)) as [Hl|Hl]; [lra|].
  reflexivity.
Qed.

Lemma sigmoid_gt_half (s : R) : sigmoid s > 0.5 <-> s > 0.5.
Proof.
  unfold sigmoid.
  pose proof (sigmoid_denominator_gt_1 s) as Hd.
  set (d := 1 + exp (-10 * (s - 0.5))) in *.
  assert (Hhalf : 1 / d > 0.5 <-> d < 2).
  { split; intros H.
    - apply Rnot_le_lt. intros Hge.
      assert (1 / d <= / 2).
      { unfold Rdiv. rewrite Rmult_1_l. apply Rinv_le_contravar; lra. }
      lra.
    - assert (/ 2 < 1 / d).
      { unfold Rdiv. rewrite Rmult_1_l. apply Rinv_lt_contravar; nra. }
      lra. }
  rewrite Hhalf. unfold d.
  split; intros H.
  - assert (He : exp (-10 * (s - 0.5)) < exp 0) by (rewrite exp_0; lra).
    apply exp_lt_inv in He. lra.
  - assert (He : exp (-10 * (s - 0.5)) < exp 0) by (apply exp_increasing; lra).
    rewrite exp_0 in He. lra.
Qed.

Lemma confidence_gt_half_iff (s : R) (r : BugReport) :
  _calculate_confidence s r > 0.5 <-> s > 0.5.
Proof. rewrite _calculate_confidence_sigmoid. apply sigmoid_gt_half. Qed.

(** C3. Squashing the similarity through the logistic curve and comparing
    the confidence to 0.5 accepts exactly the similarities that exceed 0.5:
    the accept test of the code equals the direct comparison. *)
Theorem confidence_threshold_equiv (s : R) (r : BugReport) :
  (_calculate_confidence s r > 0.5 <-> s > 0.5) /\
  accepts s r = accepts_direct s.
Proof.
  pose proof (confidence_gt_half_iff s r) as H.
  split; [exact H|].
  unfold accepts, accepts_direct.
  destruct (Rgt_dec (_calculate_confidence s r) 0.5) as [Hc|Hc],
           (Rgt_dec s 0.5) as [Hs|Hs]; try reflexivity.
  - exfalso. apply Hs, H, Hc.
  - exfalso. apply Hc, H, Hs.
Qed.

(** C4. [_calculate_confidence] returns
    min(max(1/(1+exp(-10*(s-0.5))), 0.0), 1.0), whatever the bug report,
    and the value lies in the closed interval from 0 to 1. *)
Theorem _calculate_confidence_range (s : R) (r : BugReport) :
  _calculate_confidence s r
    = Rmin (Rmax (1 / (1 + exp (-10 * (s - 0.5)))) 0.0) 1.0 /\
  0 <= _calculate_confidence s r <= 1.
Proof.
  split.
  - unfold _calculate_confidence. cbv zeta.
    rewrite py_min_Rmin, py_max_Rmax. reflexivity.
  - rewrite _calculate_confidence_sigmoid.
    pose proof (sigmoid_open_unit s). lra.
Qed.

(** ** Facts about [np.argmax] *)

Open Scope list_scope.

Lemma argmax_scan_spec (l pre : list R) (best_idx : nat) (b : R) :
  pre !! best_idx = Some b ->
  (forall j x, pre !! j = Some x -> x <= b /\ ((j < best_idx)%nat -> x < b)) ->
  exists y,
    (pre ++ l) !! argmax_scan best_idx b (length pre) l = Some y /\
    forall j x, (pre ++ l) !! j = Some x ->
      x <= y /\ ((j < argmax_scan best_idx b (length pre) l)%nat -> x < y).
Proof.
  revert pre best_idx b.
  induction l as [|x rest IH]; intros pre best_idx b Hb Hpre; cbn [argmax_scan].
  - rewrite app_nil_r. exists b. split; [exact Hb|exact Hpre].
  - replace (pre ++ x :: rest) with ((pre ++ [x]) ++ rest)
      by (rewrite <- app_assoc; reflexivity).
    replace (S (length pre)) with (length (pre ++ [x]))
      by (rewrite length_app; cbn; lia).
    destruct (Rlt_dec b x) as [Hlt|Hge].
    + apply IH.
      * rewrite lookup_app_r by lia.
        replace (length pre - length pre)%nat with 0%nat by lia. reflexivity.
      * intros j z Hj.
        destruct (decide (j < length pre)%nat) as [Hin|Hout].
        -- rewrite lookup_app_l in Hj by exact Hin.
           destruct (Hpre j z Hj) as [Hle _]. split; intros; lra.
        -- rewrite lookup_app_r in Hj by lia.
           destruct (j - length pre)%nat eqn:E; cbn in Hj; [|discriminate].
           injection Hj as <-. split; [lra|]. intros; lia.
    + apply IH.
      * rewrite lookup_app_l; [exact Hb|]. eapply lookup_lt_Some, Hb.
      * intros j z Hj.
        destruct (decide (j < length pre)%nat) as [Hin|Hout].
        -- rewrite lookup_app_l in Hj by exact Hin. apply Hpre, Hj.
        -- rewrite lookup_app_r in Hj by lia.
           destruct (j - length pre)%nat eqn:E; cbn in Hj; [|discriminate].
           injection Hj as <-. split; [lra|].
           intros Hlt. apply lookup_lt_Some in Hb. lia.
Qed.

Lemma np_argmax_spec (l : list R) (k : nat) :
  np_argmax l = Ok k ->
  exists y, l !! k = Some y /\
    forall j x, l !! j = Some x -> x <= y /\ ((j < k)%nat -> x < y).
Proof.
  destruct l as [|x rest]; cbn [np_argmax]; [discriminate|].
  intros H. injection H as <-.
  apply (argmax_scan_spec rest [x] 0%nat x); [reflexivity|].
  intros [|j] z Hj; cbn in Hj; [|discriminate].
  injection Hj as <-. split; [lra|]. intros; lia.
Qed.

(** ** Facts about [_format_solution] *)

Lemma _format_solution_Ok (ex : gmap string pyval) (c s : R) (sol : BugSolution) :
  _format_solution ex c s = Ok sol <->
  exists t so co sr,
    ex !! "title" = Some t /\ ex !! "solution" = Some so /\
    ex !! "code_example" = Some co /\ ex !! "source" = Some sr /\
    sol = mkBugSolution t so co sr c (dict_get ex "tags" (PList [])) s.
Proof.
  unfold _format_solution, getitem. split.
  - destruct (ex !! "title") as [t|]; cbn; [|discriminate].
    destruct (ex !! "solution") as [so|]; cbn; [|discriminate].
    destruct (ex !! "code_example") as [co|]; cbn; [|discriminate].
    destruct (ex !! "source") as [sr|]; cbn; [|discriminate].
    intros H. injection H as <-. exists t, so, co, sr. auto.
  - intros (t & so & co & sr & -> & -> & -> & -> & ->). reflexivity.
Qed.

Lemma _format_solution_missing (ex : gmap string pyval) (c s : R) (key : string) :
  key ∈ ["title"; "solution"; "code_example"; "source"] ->
  ex !! key = None ->
  exists e, _format_solution ex c s = Raise e.
Proof.
  intros Hkey Hnone. unfold _format_solution, getitem.
  destruct (ex !! "title") as [t|] eqn:Et; cbn; [|eauto].
  destruct (ex !! "solution") as [so|] eqn:Eso; cbn; [|eauto].
  destruct (ex !! "code_example") as [co|] eqn:Eco; cbn; [|eauto].
  destruct (ex !! "source") as [sr|] eqn:Esr; cbn; [|eauto].
  exfalso.
  repeat (apply elem_of_cons in Hkey as [->|Hkey]; [congruence|]).
  inversion Hkey.
Qed.

(** ** Facts about the engine *)

Ltac run_monad :=
  unfold bind, read, lift, ret, try_except; cbn [fst snd].

Section EngineFacts.

Variable pairwise_ok : list embedding -> list embedding -> bool.
Variable cosine : embedding -> embedding -> R.

Local Abbreviation find := (find_solution pairwise_ok cosine).
Local Abbreviation best := (best_match pairwise_ok cosine).

Lemma find_solution_unavailable (r : BugReport) (self : BugSolutionAI) :
  unavailable self = true -> find r self = (Ok None, self).
Proof.
  unfold unavailable, find_solution. run_monad.
  intros ->. reflexivity.
Qed.

Lemma find_solution_error (r : BugReport) (self : BugSolutionAI) (e : exn) :
  unavailable self = false ->
  best r self = Raise e ->
  find r self = (Ok None, self).
Proof.
  unfold unavailable, find_solution, best_match. run_monad.
  intros -> H.
  destruct (model_encode _ _) as [q|]; cbn in *; [|reflexivity].
  destruct (match example_embeddings self with Some _ => _ | None => _ end)
    as [sims|]; cbn in *; [|reflexivity].
  destruct (index sims 0) as [scores|]; cbn in *; [|reflexivity].
  destruct (np_argmax scores) as [i|]; cbn in *; [|reflexivity].
  destruct (index scores i) as [x|]; cbn in *; [discriminate|reflexivity].
Qed.

Lemma find_solution_scored (r : BugReport) (self : BugSolutionAI) (i : nat) (sim : R) :
  unavailable self = false ->
  best r self = Ok (i, sim) ->
  find r self =
    (Ok (if Rgt_dec (_calculate_confidence sim r) 0.5 then
           match rbind (index (examples self) i)
                   (fun ex => _format_solution ex (_calculate_confidence sim r) sim) with
           | Ok sol => Some sol
           | Raise _ => None
           end
         else None), self).
Proof.
  unfold unavailable, find_solution, best_match. run_monad.
  intros -> H.
  destruct (model_encode _ _) as [q|]; cbn in *; [|discriminate].
  destruct (match example_embeddings self with Some _ => _ | None => _ end)
    as [sims|]; cbn in *; [|discriminate].
  destruct (index sims 0) as [scores|]; cbn in *; [|discriminate].
  destruct (np_argmax scores) as [k|]; cbn in *; [|discriminate].
  destruct (index scores k) as [x|]; cbn in *; [|discriminate].
  injection H as -> ->.
  destruct (Rgt_dec _ _); [|reflexivity].
  destruct (index (examples self) i) as [ex|]; cbn; [|reflexivity].
  destruct (_format_solution _ _ _); reflexivity.
Qed.

Lemma best_match_inv (r : BugReport) (self : BugSolutionAI) (i : nat) (sim : R) :
  best r self = Ok (i, sim) ->
  exists m embs q qs,
    model self = Some m /\ example_embeddings self = Some embs /\
    encode m [PStr (description r)] = Ok (q :: qs) /\
    pairwise_ok (q :: qs) embs = true /\
    np_argmax (cosine q <$> embs) = Ok i /\
    (cosine q <$> embs) !! i = Some sim.
Proof.
  unfold best_match, model_encode, cosine_similarity, index.
  destruct (model self) as [m|]; cbn; [|discriminate].
  destruct (encode m _) as [qq|] eqn:Eq; cbn; [|discriminate].
  destruct (example_embeddings self) as [embs|]; cbn; [|discriminate].
  destruct (pairwise_ok qq embs) eqn:Eok; cbn; [|discriminate].
  destruct qq as [|q qs]; cbn; [discriminate|].
  destruct (np_argmax _) as [k|] eqn:Ek; cbn; [|discriminate].
  destruct (_ !! k) as [x|] eqn:Ex; cbn; [|discriminate].
  intros H. injection H as <- <-.
  exists m, embs, q, qs. auto 10.
Qed.

(** The three ways through [find_solution]. *)
Lemma find_solution_cases (r : BugReport) (self : BugSolutionAI) :
  (unavailable self = true /\ find r self = (Ok None, self)) \/
  (unavailable self = false /\ (exists e, best r self = Raise e) /\
   find r self = (Ok None, self)) \/
  (unavailable self = false /\ exists i sim, best r self = Ok (i, sim) /\
   find r self =
     (Ok (if Rgt_dec (_calculate_confidence sim r) 0.5 then
            match rbind (index (examples self) i)
                    (fun ex => _format_solution ex (_calculate_confidence sim r) sim) with
            | Ok sol => Some sol
            | Raise _ => None
            end
          else None), self)).
Proof.
  destruct (unavailable self) eqn:Eu.
  - left. auto using find_solution_unavailable.
  - right. destruct (best r self) as [[i sim]|e] eqn:Eb.
    + right. split; [reflexivity|]. exists i, sim.
      auto using find_solution_scored.
    + left. split; [reflexivity|]. split; [eauto|].
      eauto using find_solution_error.
Qed.

Lemma find_solution_Some_inv (r : BugReport) (self self' : BugSolutionAI)
    (sol : BugSolution) :
  find r self = (Ok (Some sol), self') ->
  unavailable self = false /\
  exists i sim ex,
    best r self = Ok (i, sim) /\
    _calculate_confidence sim r > 0.5 /\
    examples self !! i = Some ex /\
    _format_solution ex (_calculate_confidence sim r) sim = Ok sol.
Proof.
  intros H.
  destruct (find_solution_cases r self)
    as [[_ E]|[(_ & _ & E)|(Eu & i & sim & Eb & E)]];
    rewrite E in H; try discriminate.
  split; [exact Eu|]. exists i, sim.
  destruct (Rgt_dec _ _) as [Hc|]; [|discriminate].
  unfold index in H.
  destruct (examples self !! i) as [ex|]; cbn in H; [|discriminate].
  destruct (_format_solution _ _ _) as [s|] eqn:Ef; [|discriminate].
  injection H as -> _. exists ex. auto.
Qed.

(** C1 (amended). [find_solution] returns the formatted solution of the
    matched example exactly when the computed confidence exceeds the
    threshold 0.5 and the example at the arg-max index exists and is
    formatted without error; in every other case it returns [None]: when
    the model is not loaded or no embeddings are cached, when the scan
    raises, and when the confidence does not exceed 0.5. *)
Theorem find_solution_threshold (r : BugReport) (self : BugSolutionAI) :
  (unavailable self = true -> find r self = (Ok None, self)) /\
  (forall e, best r self = Raise e -> find r self = (Ok None, self)) /\
  (forall i sim,
     unavailable self = false -> best r self = Ok (i, sim) ->
     (forall sol,
        find r self = (Ok (Some sol), self) <->
        _calculate_confidence sim r > 0.5 /\
        exists ex, examples self !! i = Some ex /\
          _format_solution ex (_calculate_confidence sim r) sim = Ok sol) /\
     (find r self = (Ok None, self) <->
      ~ (_calculate_confidence sim r > 0.5 /\
         exists ex sol, examples self !! i = Some ex /\
           _format_solution ex (_calculate_confidence sim r) sim = Ok sol))).
Proof.
  split; [apply find_solution_unavailable|].
  split.
  { intros e He. destruct (unavailable self) eqn:Eu.
    - apply find_solution_unavailable, Eu.
    - eapply find_solution_error; eauto. }
  intros i sim Eu Eb.
  rewrite (find_solution_scored r self i sim Eu Eb).
  unfold index.
  destruct (Rgt_dec (_calculate_confidence sim r) 0.5) as [Hc|Hc].
  - destruct (examples self !! i) as [ex|] eqn:Eex; cbn [rbind].
    + destruct (_format_solution ex _ sim) as [s0|e0] eqn:Ef.
      * split.
        -- intros sol. split.
           ++ intros H. injection H as <-. split; [exact Hc|]. eauto.
           ++ intros (_ & ex' & Hex & Hf).
              injection Hex as <-. rewrite Ef in Hf. injection Hf as <-.
              reflexivity.
        -- split; [discriminate|]. intros H. exfalso. apply H.
           split; [exact Hc|]. eauto.
      * split.
        -- intros sol. split; [discriminate|].
           intros (_ & ex' & Hex & Hf). injection Hex as <-. congruence.
        -- split; [|reflexivity].
           intros _ (_ & ex' & sol & Hex & Hf). injection Hex as <-. congruence.
    + split.
      * intros sol. split; [discriminate|].
        intros (_ & ex' & Hex & _). discriminate.
      * split; [|reflexivity].
        intros _ (_ & ex' & sol & Hex & _). discriminate.
  - split.
    + intros sol. split; [discriminate|]. intros [H _]. contradiction.
    + split; [|reflexivity]. intros _ [H _]. contradiction.
Qed.

(** C2. When [find_solution] returns a solution, it is the solution of an
    arg-max of the cosine similarity: the cached embedding at the index of
    the returned example is at least as similar to the query embedding as
    every cached embedding, every embedding of the array is compared, and
    every embedding at a lower index is strictly less similar, so ties go
    to the lowest index. *)
Theorem find_solution_argmax (r : BugReport) (self self' : BugSolutionAI)
    (sol : BugSolution) :
  find r self = (Ok (Some sol), self') ->
  exists m embs q qs i best_embedding ex,
    model_loaded self = true /\
    model self = Some m /\ example_embeddings self = Some embs /\
    encode m [PStr (description r)] = Ok (q :: qs) /\
    np_argmax (cosine q <$> embs) = Ok i /\
    embs !! i = Some best_embedding /\
    examples self !! i = Some ex /\
    _format_solution ex
      (_calculate_confidence (cosine q best_embedding) r)
      (cosine q best_embedding) = Ok sol /\
    forall j other, embs !! j = Some other ->
      cosine q other <= cosine q best_embedding /\
      ((j < i)%nat -> cosine q other < cosine q best_embedding).
Proof.
  intros H.
  apply find_solution_Some_inv in H as (Eu & i & sim & ex & Eb & _ & Eex & Ef).
  assert (El : model_loaded self = true).
  { unfold unavailable in Eu. destruct (model_loaded self); [reflexivity|discriminate]. }
  apply best_match_inv in Eb as (m & embs & q & qs & Em & Ee & Eq & _ & Ea & Ei).
  rewrite list_lookup_fmap in Ei.
  destruct (embs !! i) as [best_embedding|] eqn:Ebest; [|discriminate].
  cbn in Ei. injection Ei as <-.
  exists m, embs, q, qs, i, best_embedding, ex.
  repeat (split; [assumption|]).
  intros j other Hj.
  apply np_argmax_spec in Ea as (y & Hy & Hmax).
  rewrite list_lookup_fmap, Ebest in Hy. cbn in Hy. injection Hy as <-.
  apply Hmax. rewrite list_lookup_fmap, Hj. reflexivity.
Qed.

Lemma find_solution_state (r : BugReport) (self : BugSolutionAI) :
  snd (find r self) = self.
Proof.
  destruct (find_solution_cases r self)
    as [[_ E]|[(_ & _ & E)|(_ & i & sim & _ & E)]];
    rewrite E; reflexivity.
Qed.

(** C6. A call of [find_solution] leaves every field of the engine
    (model, examples, example_embeddings, model_loaded) as it was, on
    the success path, the no-match path and the error path. *)
Theorem find_solution_stateless (r : BugReport) (self : BugSolutionAI) :
  snd (find r self) = self /\
  model (snd (find r self)) = model self /\
  examples (snd (find r self)) = examples self /\
  example_embeddings (snd (find r self)) = example_embeddings self /\
  model_loaded (snd (find r self)) = model_loaded self.
Proof.
  rewrite find_solution_state. auto.
Qed.

(** Given the record modelled for [BugSolution], every solution that
    [find_solution] returns is populated field for field from the example
    at the index of the best match: title, solution, code example and
    source are the entries of that example, tags is its tags entry when
    it has one and the empty list when it has none, confidence is the
    computed confidence and similarity_score the raw similarity. *)
Theorem find_solution_populates (r : BugReport) (self self' : BugSolutionAI)
    (sol : BugSolution) :
  find r self = (Ok (Some sol), self') ->
  exists i sim ex,
    best r self = Ok (i, sim) /\ examples self !! i = Some ex /\
    ex !! "title" = Some (sol_title sol) /\
    ex !! "solution" = Some (sol_solution sol) /\
    ex !! "code_example" = Some (sol_code_example sol) /\
    ex !! "source" = Some (sol_source sol) /\
    (forall tags, ex !! "tags" = Some tags -> sol_tags sol = tags) /\
    (ex !! "tags" = None -> sol_tags sol = PList []) /\
    sol_confidence sol = _calculate_confidence sim r /\
    sol_similarity_score sol = sim.
Proof.
  intros H.
  apply find_solution_Some_inv in H as (_ & i & sim & ex & Eb & _ & Eex & Ef).
  apply _format_solution_Ok in Ef as (t & so & co & sr & Ht & Hso & Hco & Hsr & ->).
  exists i, sim, ex. cbn [sol_title sol_solution sol_code_example sol_source
                          sol_tags sol_confidence sol_similarity_score].
  repeat (split; [assumption|]).
  unfold dict_get.
  split; [intros tags ->; reflexivity|].
  split; [intros ->; reflexivity|]. auto.
Qed.

(** C9. The outcome of [find_solution] depends on the bug report only
    through its description: two reports with the same description give
    the same result on the same engine, whatever their other fields. *)
Theorem find_solution_description_only (r1 r2 : BugReport) (self : BugSolutionAI) :
  description r1 = description r2 ->
  find r1 self = find r2 self.
Proof.
  intros H. unfold find_solution, _calculate_confidence.
  rewrite H. reflexivity.
Qed.

(** C10. [find_solution] never raises: it always returns a value, and a
    failure of the encoding, of the similarity computation or of the
    indexing, a missing example, or a matched example that lacks one of
    the keys title, solution, code_example and source, gives [None]. *)
Theorem find_solution_never_raises (r : BugReport) (self : BugSolutionAI) :
  (exists answer, fst (find r self) = Ok answer) /\
  (forall e, best r self = Raise e -> fst (find r self) = Ok None) /\
  (forall i sim, best r self = Ok (i, sim) ->
     examples self !! i = None -> fst (find r self) = Ok None) /\
  (forall i sim ex key, best r self = Ok (i, sim) ->
     examples self !! i = Some ex ->
     key ∈ ["title"; "solution"; "code_example"; "source"] ->
     ex !! key = None ->
     fst (find r self) = Ok None).
Proof.
  split; [|split; [|split]].
  - destruct (find_solution_cases r self)
      as [[_ E]|[(_ & _ & E)|(_ & i & sim & _ & E)]];
      rewrite E; eauto.
  - intros e He. destruct (unavailable self) eqn:Eu.
    + rewrite find_solution_unavailable by exact Eu. reflexivity.
    + rewrite (find_solution_error r self e) by assumption. reflexivity.
  - intros i sim Eb Eex. destruct (unavailable self) eqn:Eu.
    + rewrite find_solution_unavailable by exact Eu. reflexivity.
    + rewrite (find_solution_scored r self i sim Eu Eb).
      unfold index. rewrite Eex. cbn.
      destruct (Rgt_dec _ _); reflexivity.
  - intros i sim ex key Eb Eex Hkey Hnone. destruct (unavailable self) eqn:Eu.
    + rewrite find_solution_unavailable by exact Eu. reflexivity.
    + rewrite (find_solution_scored r self i sim Eu Eb).
      unfold index. rewrite Eex. cbn.
      destruct (_format_solution_missing ex (_calculate_confidence sim r) sim key
                  Hkey Hnone) as [e ->].
      destruct (Rgt_dec _ _); reflexivity.
Qed.

End EngineFacts.

(** ** The examples list across the public operations *)

Section Immutability.

Variable SentenceTransformer : string -> result Model.
Variable examples_json : option (result (list (gmap string pyval))).
Variable mkdir_data : result unit.
Variable np_save : list embedding -> result unit.
Variable pairwise_ok : list embedding -> list embedding -> bool.
Variable cosine : embedding -> embedding -> R.

Local Abbreviation prepare := (_prepare_embeddings mkdir_data np_save).
Local Abbreviation init :=
  (__init__ SentenceTransformer examples_json mkdir_data np_save).
Local Abbreviation step := (perform mkdir_data np_save pairwise_ok cosine).
Local Abbreviation steps := (perform_all mkdir_data np_save pairwise_ok cosine).

Lemma _prepare_embeddings_examples (self : BugSolutionAI) :
  examples (snd (prepare self)) = examples self.
Proof.
  unfold _prepare_embeddings, set_example_embeddings. run_monad.
  destruct (negb (model_loaded self) || bool_decide (examples self = []));
    [reflexivity|].
  destruct (comprehension _ (examples self)) as [texts|]; [|reflexivity].
  destruct (model_encode (model self) texts) as [embs|]; [|reflexivity].
  destruct mkdir_data; [|reflexivity].
  destruct (np_save embs); reflexivity.
Qed.

Lemma _load_model_examples (self : BugSolutionAI) :
  examples (snd (_load_model SentenceTransformer self)) = examples self.
Proof.
  unfold _load_model, set_model, set_model_loaded. run_monad.
  destruct (SentenceTransformer _); reflexivity.
Qed.

Lemma perform_examples (op : operation) (self : BugSolutionAI) :
  examples (step op self) = examples self.
Proof.
  destruct op as [r| | |]; cbn [perform].
  - rewrite find_solution_state. reflexivity.
  - unfold update_embeddings. run_monad.
    destruct (model_loaded self); [|reflexivity].
    apply _prepare_embeddings_examples.
  - reflexivity.
  - reflexivity.
Qed.

Lemma perform_all_examples (ops : list operation) (self : BugSolutionAI) :
  examples (steps ops self) = examples self.
Proof.
  unfold perform_all. revert self.
  induction ops as [|op ops IH]; intros self; cbn [foldl]; [reflexivity|].
  rewrite IH. apply perform_examples.
Qed.

Lemma __init___examples (loaded : list (gmap string pyval)) :
  examples_json = Some (Ok loaded) \/
  (examples_json = None /\ loaded = _get_default_examples) ->
  examples (snd (init blank)) = loaded.
Proof.
  intros H. unfold __init__, bind.
  assert (E : _load_examples examples_json blank
              = (Ok tt, mkEngine None loaded None false)).
  { unfold _load_examples. destruct H as [->|[-> ->]]; reflexivity. }
  rewrite E.
  destruct (_load_model SentenceTransformer (mkEngine None loaded None false))
    as [[[]|e] self1] eqn:E1.
  - rewrite _prepare_embeddings_examples.
    change self1 with (snd (Ok tt, self1)). rewrite <- E1.
    apply _load_model_examples.
  - cbn [snd]. change self1 with (snd (@Raise unit e, self1)). rewrite <- E1.
    apply _load_model_examples.
Qed.

(** C5. Knowledge-base entries are immutable after load: each public
    operation (find_solution, update_embeddings, get_examples,
    get_model_status), and so every run of them, leaves the examples
    list as it was; after start-up it stays the list parsed from
    data/examples.json, or the default examples when that file is
    absent. *)
Theorem examples_immutable (ops : list operation) (self : BugSolutionAI) :
  (forall op, examples (step op self) = examples self) /\
  examples (steps ops self) = examples self /\
  (forall loaded, examples_json = Some (Ok loaded) ->
     examples (steps ops (snd (init blank))) = loaded) /\
  (examples_json = None ->
     examples (steps ops (snd (init blank))) = _get_default_examples).
Proof.
  split; [intros op; apply perform_examples|].
  split; [apply perform_all_examples|].
  split.
  - intros loaded H. rewrite perform_all_examples.
    apply __init___examples. auto.
  - intros H. rewrite perform_all_examples.
    apply __init___examples. auto.
Qed.

End Immutability.

(** ** Constructing a bug report *)

Section ConstructionFacts.

Variable int_validator : pyval -> option Z.
Variable str_validator : pyval -> option string.
Variable datetime_validator : pyval -> option datetime.
Variable bool_validator : pyval -> option bool.
Variable utcnow : datetime.

Hypothesis str_validator_str : forall s, str_validator (PStr s) = Some s.

Local Abbreviation construct :=
  (BugReport_init int_validator str_validator datetime_validator
     bool_validator utcnow).

(** C7. A bug report needs a title and a description and accepts an
    optional code snippet and language tag: it is constructed from a
    title and a description alone, every other field taking its
    default; a code snippet and a language given as strings are stored;
    and construction fails with a validation error that names the field
    when the title or the description is absent. *)
Theorem BugReport_required_fields (t d : string) :
  construct (dict [("title", PStr t); ("description", PStr d)])
    = Ok {| id := None; title := t; description := d;
            steps_to_reproduce := None; expected_behavior := None;
            actual_behavior := None; code_snippet := None; language := None;
            created_at := Some utcnow; resolved := false |} /\
  (forall c l,
     construct (dict [("title", PStr t); ("description", PStr d);
                      ("code_snippet", PStr c); ("language", PStr l)])
     = Ok {| id := None; title := t; description := d;
             steps_to_reproduce := None; expected_behavior := None;
             actual_behavior := None; code_snippet := Some c;
             language := Some l;
             created_at := Some utcnow; resolved := false |}) /\
  (forall kwargs : gmap string pyval,
     kwargs !! "title" = None ->
     exists fields, construct kwargs = Raise (ValidationError fields)
                    /\ "title" ∈ fields) /\
  (forall kwargs : gmap string pyval,
     kwargs !! "description" = None ->
     exists fields, construct kwargs = Raise (ValidationError fields)
                    /\ "description" ∈ fields).
Proof.
  split; [|split; [|split]].
  - unfold BugReport_init, Field, dict.
    repeat (rewrite ?lookup_insert_eq, ?lookup_insert_ne, ?lookup_empty by done;
            cbn [list_to_map foldr uncurry fst snd]).
    rewrite !str_validator_str. reflexivity.
  - intros c l. unfold BugReport_init, Field, dict.
    repeat (rewrite ?lookup_insert_eq, ?lookup_insert_ne, ?lookup_empty by done;
            cbn [list_to_map foldr uncurry fst snd]).
    unfold optional. rewrite !str_validator_str. reflexivity.
  - intros kwargs Hnone.
    assert (E : Field str_validator None kwargs "title" = None)
      by (unfold Field; rewrite Hnone; reflexivity).
    unfold BugReport_init. cbv zeta. rewrite E.
    destruct (Field (optional int_validator) _ kwargs "id");
      (eexists; split; [reflexivity|cbn [error_of]; set_solver]).
  - intros kwargs Hnone.
    assert (E : Field str_validator None kwargs "description" = None)
      by (unfold Field; rewrite Hnone; reflexivity).
    unfold BugReport_init. cbv zeta. rewrite E.
    destruct (Field (optional int_validator) _ kwargs "id"),
             (Field str_validator None kwargs "title");
      (eexists; split; [reflexivity|cbn [error_of]; set_solver]).
Qed.

End ConstructionFacts.

(** ** Importing the models module *)

Lemma import_from_bound (namespace names bound : list string) :
  import_from namespace names = Imported bound ->
  bound = names /\ Forall (fun name => name ∈ namespace) names.
Proof.
  revert bound. induction names as [|name rest IH]; intros bound; cbn [import_from].
  - intros H. injection H as <-. split; [reflexivity|constructor].
  - destruct (bool_decide (name ∈ namespace)) eqn:E; [|discriminate].
    apply bool_decide_eq_true in E.
    destruct (import_from namespace rest) as [bound'|]; [|discriminate].
    intros H. injection H as <-.
    destruct (IH bound' eq_refl) as [-> Hrest].
    split; [reflexivity|]. constructor; assumption.
Qed.

(** C8 (defect of the code). The data model does not provide the record
    shape [BugSolution]: models.py binds no such name, so the import
    [from models import BugReport, BugSolution] of ai_engine.py and of
    main.py raises [ImportError] on [BugSolution], and no import from
    models that asks for [BugSolution] succeeds; [_format_solution] has
    no class to build its result with. *)
Theorem import_models_fails :
  import_models = ImportError "BugSolution" /\
  ("BugSolution" ∉ models_namespace) /\
  forall names bound,
    "BugSolution" ∈ names ->
    import_from models_namespace names <> Imported bound.
Proof.
  assert (Hnot : "BugSolution" ∉ models_namespace).
  { unfold models_namespace. intros H.
    repeat (apply elem_of_cons in H as [H|H]; [discriminate|]).
    inversion H. }
  split; [reflexivity|]. split; [exact Hnot|].
  intros names bound Hin Himp.
  apply import_from_bound in Himp as [_ Hall].
  apply Hnot. eapply Forall_forall in Hall; eassumption.
Qed.

(** ** Start-up and the embeddings cache *)

Lemma comprehension_getitem (key : string) (exs : list (gmap string pyval))
    (texts : list pyval) :
  comprehension (fun example => getitem example key) exs = Ok texts <->
  Forall2 (fun example text => example !! key = Some text) exs texts.
Proof.
  revert texts. induction exs as [|ex exs IH]; intros texts; cbn [comprehension].
  - split.
    + intros H. injection H as <-. constructor.
    + intros H. inversion H. reflexivity.
  - unfold getitem at 1. split.
    + destruct (ex !! key) as [t|] eqn:Et; cbn [rbind]; [|discriminate].
      destruct (comprehension _ exs) as [ts|] eqn:Ec; cbn [rbind]; [|discriminate].
      intros H. injection H as <-. constructor; [exact Et|].
      apply IH. reflexivity.
    + intros H. inversion H as [|? t ? ts Ht Hts]; subst.
      rewrite Ht. cbn [rbind].
      apply IH in Hts. rewrite Hts. reflexivity.
Qed.

Section Lifecycle.

Variable SentenceTransformer : string -> result Model.
Variable examples_json : option (result (list (gmap string pyval))).
Variable mkdir_data : result unit.
Variable np_save : list embedding -> result unit.
Variable pairwise_ok : list embedding -> list embedding -> bool.
Variable cosine : embedding -> embedding -> R.

Local Abbreviation prepare := (_prepare_embeddings mkdir_data np_save).
Local Abbreviation update := (update_embeddings mkdir_data np_save).
Local Abbreviation init :=
  (__init__ SentenceTransformer examples_json mkdir_data np_save).
Local Abbreviation step := (perform mkdir_data np_save pairwise_ok cosine).
Local Abbreviation steps := (perform_all mkdir_data np_save pairwise_ok cosine).
Local Abbreviation find := (find_solution pairwise_ok cosine).

Lemma _prepare_embeddings_skipped (self : BugSolutionAI) :
  model_loaded self = false \/ examples self = [] ->
  prepare self = (Ok tt, self).
Proof.
  intros H. unfold _prepare_embeddings. run_monad.
  assert (E : negb (model_loaded self) || bool_decide (examples self = []) = true).
  { destruct H as [->| ->]; [reflexivity|]. apply orb_true_r. }
  rewrite E. reflexivity.
Qed.

Lemma _prepare_embeddings_ran (self : BugSolutionAI) :
  model_loaded self = true -> examples self <> [] ->
  prepare self =
    (Ok tt,
     mkEngine (model self) (examples self)
       (match
          rbind (comprehension (fun example => getitem example "description")
                   (examples self)) (fun texts =>
          rbind (model_encode (model self) texts) (fun embs =>
          rbind mkdir_data (fun _ =>
          rbind (np_save embs) (fun _ => Ok embs))))
        with
        | Ok embs => Some embs
        | Raise _ => None
        end)
       (model_loaded self)).
Proof.
  intros Hl Hne. unfold _prepare_embeddings, set_example_embeddings. run_monad.
  rewrite Hl, bool_decide_eq_false_2 by exact Hne. cbn [negb orb].
  destruct (comprehension _ (examples self)) as [texts|]; cbn [rbind];
    [|rewrite <- Hl; reflexivity].
  destruct (model_encode (model self) texts) as [embs|]; cbn [rbind];
    [|rewrite <- Hl; reflexivity].
  destruct mkdir_data; cbn [rbind]; [|rewrite <- Hl; reflexivity].
  destruct (np_save embs); cbn [rbind]; rewrite <- Hl; reflexivity.
Qed.

Lemma update_embeddings_cache_aux (self : BugSolutionAI) :
  fst (prepare self) = Ok tt /\
  model (snd (prepare self)) = model self /\
  model_loaded (snd (prepare self)) = model_loaded self /\
  examples (snd (prepare self)) = examples self.
Proof.
  destruct (decide (model_loaded self = true)) as [El|El];
    [destruct (decide (examples self = [])) as [Ee|Ee]|].
  - rewrite _prepare_embeddings_skipped by auto. auto.
  - rewrite _prepare_embeddings_ran by assumption. auto.
  - apply not_true_is_false in El.
    rewrite _prepare_embeddings_skipped by auto. auto.
Qed.

(** [update_embeddings] never raises and writes no field but the cache:
    model, examples and the loaded flag are as before.
    Without a loaded model or without examples it changes nothing, so
    embeddings cached earlier stay. Otherwise the cache afterwards holds
    [embs] exactly when every example has a description, the model
    encodes these descriptions to [embs], and the array is saved to
    disk; when any of these steps fails the cache is cleared. *)
Theorem update_embeddings_cache (self : BugSolutionAI) :
  fst (update self) = Ok tt /\
  model (snd (update self)) = model self /\
  examples (snd (update self)) = examples self /\
  model_loaded (snd (update self)) = model_loaded self /\
  (model_loaded self = false \/ examples self = [] -> snd (update self) = self) /\
  (model_loaded self = true -> examples self <> [] ->
   forall embs,
     example_embeddings (snd (update self)) = Some embs <->
     exists texts,
       Forall2 (fun example text => example !! "description" = Some text)
         (examples self) texts /\
       model_encode (model self) texts = Ok embs /\
       mkdir_data = Ok tt /\ np_save embs = Ok tt).
Proof.
  assert (Hu : update self = prepare self).
  { unfold update_embeddings. run_monad.
    destruct (model_loaded self) eqn:El; [reflexivity|].
    symmetry. apply _prepare_embeddings_skipped. auto. }
  rewrite Hu.
  destruct (decide (model_loaded self = true)) as [El|El];
    [destruct (decide (examples self = [])) as [Ee|Ee]|].
  - rewrite _prepare_embeddings_skipped by auto.
    repeat (split; [reflexivity|]).
    intros _ H. contradiction.
  - rewrite _prepare_embeddings_ran by assumption.
    cbn [fst snd model model_loaded examples].
    repeat (split; [reflexivity|]).
    split; [intros [H|H]; [congruence|contradiction]|].
    intros _ _ embs. cbn [example_embeddings].
    destruct (comprehension _ (examples self)) as [texts|e] eqn:Ec; cbn [rbind].
    + apply comprehension_getitem in Ec.
      assert (Huniq : forall texts', Forall2
                (fun example text => example !! "description" = Some text)
                (examples self) texts' -> texts' = texts).
      { intros texts' H'. apply comprehension_getitem in H'.
        apply comprehension_getitem in Ec. congruence. }
      destruct (model_encode (model self) texts) as [embs0|] eqn:Em; cbn [rbind].
      * destruct mkdir_data as [[]|] eqn:Ed; cbn [rbind].
        -- destruct (np_save embs0) as [[]|] eqn:Es; cbn [rbind].
           ++ split.
              ** intros H. injection H as <-. exists texts. auto.
              ** intros (texts' & H' & Hm & _ & _).
                 apply Huniq in H'. subst texts'. congruence.
           ++ split; [discriminate|].
              intros (texts' & H' & Hm & _ & Hs).
              apply Huniq in H'. subst texts'.
              assert (embs = embs0) by congruence. subst. congruence.
        -- split; [discriminate|]. intros (_ & _ & _ & H & _). discriminate.
      * split; [discriminate|].
        intros (texts' & H' & Hm & _). apply Huniq in H'. subst texts'. congruence.
    + split; [discriminate|].
      intros (texts' & H' & _). apply comprehension_getitem in H'. congruence.
  - apply not_true_is_false in El.
    rewrite _prepare_embeddings_skipped by auto.
    repeat (split; [reflexivity|]).
    intros H. congruence.
Qed.

Lemma __init___unfold (loaded : list (gmap string pyval)) :
  examples_json = Some (Ok loaded) \/
  (examples_json = None /\ loaded = _get_default_examples) ->
  init blank =
    prepare (match SentenceTransformer "all-MiniLM-L6-v2" with
             | Ok m => mkEngine (Some m) loaded None true
             | Raise _ => mkEngine None loaded None false
             end).
Proof.
  intros H. unfold __init__, bind.
  assert (E : _load_examples examples_json blank
              = (Ok tt, mkEngine None loaded None false)).
  { unfold _load_examples. destruct H as [->|[-> ->]]; reflexivity. }
  rewrite E. unfold _load_model, set_model, set_model_loaded. run_monad.
  destruct (SentenceTransformer _); reflexivity.
Qed.

(** Start-up raises exactly when data/examples.json exists and cannot be
    loaded, and then with that error. A model that fails to load does
    not fail start-up: the engine is left without model and without
    embeddings, and [find_solution] then answers [None] to every bug
    report. A model that loads is stored and flagged as loaded. *)
Theorem __init___outcome :
  (forall e, examples_json = Some (Raise e) -> init blank = (Raise e, blank)) /\
  ((forall e, examples_json <> Some (Raise e)) -> fst (init blank) = Ok tt) /\
  (forall e bug_report,
     (forall e', examples_json <> Some (Raise e')) ->
     SentenceTransformer "all-MiniLM-L6-v2" = Raise e ->
     model (snd (init blank)) = None /\
     model_loaded (snd (init blank)) = false /\
     example_embeddings (snd (init blank)) = None /\
     find bug_report (snd (init blank)) = (Ok None, snd (init blank))) /\
  (forall m,
     (forall e', examples_json <> Some (Raise e')) ->
     SentenceTransformer "all-MiniLM-L6-v2" = Ok m ->
     model (snd (init blank)) = Some m /\
     model_loaded (snd (init blank)) = true).
Proof.
  assert (Hload : (forall e, examples_json <> Some (Raise e)) ->
                  exists loaded,
                    examples_json = Some (Ok loaded) \/
                    (examples_json = None /\ loaded = _get_default_examples)).
  { intros H. destruct examples_json as [[l|e]|]; [eauto| |eauto].
    exfalso. apply (H e). reflexivity. }
  split; [|split; [|split]].
  - intros e ->. reflexivity.
  - intros H. destruct (Hload H) as [loaded Hl].
    rewrite (__init___unfold loaded Hl).
    exact (proj1 (update_embeddings_cache_aux _)).
  - intros e bug_report H He. destruct (Hload H) as [loaded Hl].
    rewrite (__init___unfold loaded Hl), He.
    rewrite _prepare_embeddings_skipped by (left; reflexivity).
    cbn [snd model model_loaded example_embeddings].
    repeat (split; [reflexivity|]).
    apply find_solution_unavailable. reflexivity.
  - intros m H Hm. destruct (Hload H) as [loaded Hl].
    rewrite (__init___unfold loaded Hl), Hm.
    destruct (proj2 (update_embeddings_cache_aux (mkEngine (Some m) loaded None true)))
      as (-> & -> & _).
    split; reflexivity.
Qed.

Lemma _prepare_embeddings_consistent (self : BugSolutionAI) :
  consistent self -> consistent (snd (prepare self)).
Proof.
  intros [Hm Hc].
  destruct (decide (model_loaded self = true)) as [El|El];
    [destruct (decide (examples self = [])) as [Ee|Ee]|].
  - rewrite _prepare_embeddings_skipped by auto. split; assumption.
  - rewrite _prepare_embeddings_ran by assumption.
    split; [exact Hm|].
    cbn [snd example_embeddings model_loaded examples].
    intros Hsome. split; [exact El|]. split; [exact Ee|].
    destruct (comprehension _ (examples self)) as [texts|] eqn:Ec;
      cbn [rbind] in Hsome; [|congruence].
    apply comprehension_getitem in Ec.
    clear -Ec. induction Ec as [|ex t exs ts Ht _ IH]; constructor; [congruence|exact IH].
  - apply not_true_is_false in El.
    rewrite _prepare_embeddings_skipped by auto. split; assumption.
Qed.

Lemma perform_consistent (op : operation) (self : BugSolutionAI) :
  consistent self -> consistent (step op self).
Proof.
  intros Hc. destruct op as [r| | |]; cbn [perform].
  - rewrite find_solution_state. exact Hc.
  - unfold update_embeddings. run_monad.
    destruct (model_loaded self) eqn:El; [|exact Hc].
    apply _prepare_embeddings_consistent, Hc.
  - exact Hc.
  - exact Hc.
Qed.

(** After start-up and any run of the public operations the engine is
    consistent: the loaded flag is set exactly when a model is stored,
    and embeddings are cached only while the model is loaded and the
    examples are a list that is not empty and whose entries all have a
    description. *)
Theorem consistent_reachable (ops : list operation) :
  consistent (steps ops (snd (init blank))).
Proof.
  assert (Hinit : consistent (snd (init blank))).
  { assert (Hcases :
      (exists loaded, examples_json = Some (Ok loaded) \/
                      (examples_json = None /\ loaded = _get_default_examples)) \/
      (exists e, examples_json = Some (Raise e))).
    { destruct examples_json as [[l|e]|]; eauto. }
    destruct Hcases as [[loaded Hl]|[e He]].
    - rewrite (__init___unfold loaded Hl).
      apply _prepare_embeddings_consistent.
      destruct (SentenceTransformer _); (split; [split|]); cbn; congruence.
    - unfold __init__, bind, _load_examples, lift. rewrite He. cbn.
      (split; [split|]); cbn; congruence. }
  unfold perform_all. revert Hinit. generalize (snd (init blank)).
  induction ops as [|op ops IH]; intros self Hc; cbn [foldl]; [exact Hc|].
  apply IH, perform_consistent, Hc.
Qed.

(** What [get_model_status] reports gates [find_solution]: whenever the
    call returns a status, the engine is as before, examples_count is
    the length of the examples list, the status reports model_loaded and
    embeddings_ready both true exactly when [find_solution] passes its
    guard, and when it does not report both as true, [find_solution]
    answers [None] to every bug report. *)
Theorem get_model_status_gates (self : BugSolutionAI) (status : gmap string pyval) :
  fst (get_model_status self) = Ok status ->
  snd (get_model_status self) = self /\
  status !! "examples_count"
    = Some (PInt (Z.of_nat (length (examples self)))) /\
  (status !! "model_loaded" = Some (PBool true) /\
   status !! "embeddings_ready" = Some (PBool true) <->
   unavailable self = false) /\
  forall bug_report,
    status !! "model_loaded" <> Some (PBool true) \/
    status !! "embeddings_ready" <> Some (PBool true) ->
    find bug_report self = (Ok None, self).
Proof.
  intros H.
  assert (Hs : status
               = dict [("model_loaded", PBool (model_loaded self));
                       ("examples_count", PInt (Z.of_nat (length (examples self))));
                       ("embeddings_ready",
                        PBool (bool_decide (example_embeddings self <> None)));
                       ("model_name", match model self with
                                      | Some _ => PStr "all-MiniLM-L6-v2"
                                      | None => PNone
                                      end)]).
  { unfold get_model_status, bind, read, ret in H. cbn [fst] in H. congruence. }
  clear H. subst status.
  split; [reflexivity|]. split; [reflexivity|].
  assert (Hl : dict [("model_loaded", PBool (model_loaded self));
                     ("examples_count", PInt (Z.of_nat (length (examples self))));
                     ("embeddings_ready",
                      PBool (bool_decide (example_embeddings self <> None)));
                     ("model_name", match model self with
                                    | Some _ => PStr "all-MiniLM-L6-v2"
                                    | None => PNone
                                    end)] !! "model_loaded"
               = Some (PBool (model_loaded self))) by reflexivity.
  assert (He : dict [("model_loaded", PBool (model_loaded self));
                     ("examples_count", PInt (Z.of_nat (length (examples self))));
                     ("embeddings_ready",
                      PBool (bool_decide (example_embeddings self <> None)));
                     ("model_name", match model self with
                                    | Some _ => PStr "all-MiniLM-L6-v2"
                                    | None => PNone
                                    end)] !! "embeddings_ready"
               = Some (PBool (bool_decide (example_embeddings self <> None))))
    by reflexivity.
  rewrite Hl, He. unfold unavailable.
  split.
  - destruct (model_loaded self); destruct (example_embeddings self) as [embs|];
      cbn; (split; [intros Hboth|intros Hguard]);
      try (split; reflexivity); try reflexivity; try discriminate;
      destruct Hboth as [H1 H2]; discriminate.
  - intros bug_report H. apply find_solution_unavailable. unfold unavailable.
    destruct (model_loaded self); [|reflexivity].
    destruct (example_embeddings self) as [embs|]; [|reflexivity].
    exfalso. destruct H as [H|H]; apply H; reflexivity.
Qed.

End Lifecycle.

(** ** Matches on a well-formed knowledge base *)

Section MatchFacts.

Variable pairwise_ok : list embedding -> list embedding -> bool.
Variable cosine : embedding -> embedding -> R.

Local Abbreviation find := (find_solution pairwise_ok cosine).
Local Abbreviation best := (best_match pairwise_ok cosine).

Lemma formattable_Ok (ex : gmap string pyval) (c s : R) :
  formattable ex -> exists sol, _format_solution ex c s = Ok sol.
Proof.
  intros (Ht & Hso & Hco & Hsr).
  destruct (ex !! "title") as [t|] eqn:Et; [|contradiction].
  destruct (ex !! "solution") as [so|] eqn:Eso; [|contradiction].
  destruct (ex !! "code_example") as [co|] eqn:Eco; [|contradiction].
  destruct (ex !! "source") as [sr|] eqn:Esr; [|contradiction].
  eexists. apply _format_solution_Ok. exists t, so, co, sr. auto.
Qed.

(** On an available engine whose examples all have the keys title,
    solution, code_example and source, and whose cache has at most one
    row per example, the threshold alone decides: [find_solution]
    returns a solution exactly when the confidence of the best match
    exceeds 0.5, that is, exactly when its similarity exceeds 0.5. *)
Theorem find_solution_threshold_formattable (r : BugReport) (self : BugSolutionAI)
    (i : nat) (sim : R) :
  unavailable self = false ->
  Forall formattable (examples self) ->
  (forall embs, example_embeddings self = Some embs ->
                (length embs <= length (examples self))%nat) ->
  best r self = Ok (i, sim) ->
  (_calculate_confidence sim r > 0.5 <->
   exists sol, find r self = (Ok (Some sol), self)) /\
  (sim > 0.5 <-> exists sol, find r self = (Ok (Some sol), self)).
Proof.
  intros Eu Hform Hlen Eb.
  assert (Hc : _calculate_confidence sim r > 0.5 <->
               exists sol, find r self = (Ok (Some sol), self)).
  { rewrite (find_solution_scored _ _ r self i sim Eu Eb).
    destruct (Rgt_dec (_calculate_confidence sim r) 0.5) as [Hgt|Hle].
    - split; [intros _|intros _; exact Hgt].
      pose proof Eb as Einv.
      apply best_match_inv in Einv as (m & embs & q & qs & _ & Ee & _ & _ & _ & Ei).
      apply lookup_lt_Some in Ei. rewrite length_fmap in Ei.
      specialize (Hlen embs Ee).
      destruct (lookup_lt_is_Some_2 (examples self) i) as [ex Hex]; [lia|].
      assert (Hf : formattable ex).
      { eapply Forall_lookup_1; eassumption. }
      destruct (formattable_Ok ex (_calculate_confidence sim r) sim Hf) as [sol Hsol].
      exists sol. unfold index. rewrite Hex. cbn [rbind]. rewrite Hsol. reflexivity.
    - split; [intros H; contradiction|].
      intros [sol H]. discriminate. }
  split; [exact Hc|].
  rewrite <- Hc. symmetry. apply confidence_gt_half_iff.
Qed.

(** Every solution that [find_solution] returns carries a similarity
    above 0.5 and a confidence strictly between 0.5 and 1, the logistic
    image of that similarity. *)
Theorem find_solution_confident (r : BugReport) (self self' : BugSolutionAI)
    (sol : BugSolution) :
  find r self = (Ok (Some sol), self') ->
  sol_similarity_score sol > 0.5 /\
  0.5 < sol_confidence sol < 1 /\
  sol_confidence sol = sigmoid (sol_similarity_score sol).
Proof.
  intros H.
  apply find_solution_Some_inv in H as (_ & i & sim & ex & _ & Hc & _ & Ef).
  apply _format_solution_Ok in Ef as (t & so & co & sr & _ & _ & _ & _ & ->).
  cbn [sol_similarity_score sol_confidence].
  pose proof (proj1 (confidence_gt_half_iff sim r) Hc) as Hs.
  rewrite _calculate_confidence_sigmoid in *.
  pose proof (sigmoid_open_unit sim). repeat split; lra.
Qed.

End MatchFacts.

(** ** More on constructing a bug report *)

Section ConstructionMore.

Variable int_validator : pyval -> option Z.
Variable str_validator : pyval -> option string.
Variable datetime_validator : pyval -> option datetime.
Variable bool_validator : pyval -> option bool.
Variable utcnow : datetime.

Local Abbreviation construct :=
  (BugReport_init int_validator str_validator datetime_validator
     bool_validator utcnow).

(** A keyword that names no field of [BugReport] is ignored: it changes
    neither the constructed report nor the validation error. *)
Theorem BugReport_init_ignores_unknown (kwargs : gmap string pyval)
    (key : string) (v : pyval) :
  key ∉ ["id"; "title"; "description"; "steps_to_reproduce";
         "expected_behavior"; "actual_behavior"; "code_snippet";
         "language"; "created_at"; "resolved"] ->
  construct (<[key := v]> kwargs) = construct kwargs.
Proof.
  intros Hkey.
  assert (Hfield : forall T (validator : pyval -> option T) dflt name,
            name ∈ ["id"; "title"; "description"; "steps_to_reproduce";
                    "expected_behavior"; "actual_behavior"; "code_snippet";
                    "language"; "created_at"; "resolved"] ->
            Field validator dflt (<[key := v]> kwargs) name
            = Field validator dflt kwargs name).
  { intros T validator dflt name Hname. unfold Field.
    rewrite lookup_insert_ne; [reflexivity|].
    intros ->. contradiction. }
  unfold BugReport_init.
  rewrite !Hfield by set_solver. reflexivity.
Qed.

Hypothesis str_validator_str : forall s, str_validator (PStr s) = Some s.

(** The form of the demo and the model fit together: no request is
    built without a title and a description, and the [bug_data] built
    otherwise always constructs a [BugReport], with the title and the
    description of the form, the code snippet when one was typed and
    [None] when the box was left empty, the technology as language, and
    the extra tech_stack entry ignored. *)
Theorem bug_data_constructs (title description code_snippet tech_stack : string) :
  (bug_data title description code_snippet tech_stack = None <->
   title = "" \/ description = "") /\
  forall data,
    bug_data title description code_snippet tech_stack = Some data ->
    construct data
    = Ok {| id := None; title := title; description := description;
            steps_to_reproduce := None; expected_behavior := None;
            actual_behavior := None;
            code_snippet := if bool_decide (code_snippet = "") then None
                            else Some code_snippet;
            language := Some tech_stack;
            created_at := Some utcnow; resolved := false |}.
Proof.
  unfold bug_data.
  destruct (bool_decide (title = "")) eqn:Et; cbn [orb].
  { apply bool_decide_eq_true in Et. split; [tauto|discriminate]. }
  destruct (bool_decide (description = "")) eqn:Ed; cbn [orb].
  { apply bool_decide_eq_true in Ed. split; [tauto|discriminate]. }
  apply bool_decide_eq_false in Et, Ed.
  split; [split; [discriminate|tauto]|].
  intros data H. injection H as <-.
  unfold BugReport_init, Field, dict.
  repeat (rewrite ?lookup_insert_eq, ?lookup_insert_ne, ?lookup_empty by done;
          cbn [list_to_map foldr uncurry fst snd]).
  destruct (bool_decide (code_snippet = ""));
    unfold optional; rewrite !str_validator_str; reflexivity.
Qed.

End ConstructionMore.

(** ** The API *)

Ltac run_handler :=
  unfold h_bind, h_try, h_read, h_lift, h_ret, h_raise, on_engine,
    incr_request_count, incr_error_count, incr_analyze_bug_count;
  cbn [fst snd request_count error_count analyze_bug_count ai_engine].

Section ApiFacts.

Variable pairwise_ok : list embedding -> list embedding -> bool.
Variable cosine : embedding -> embedding -> R.
Variable round_ : R -> Z -> R.
Variable str_ : exception -> string.

Local Abbreviation find := (find_solution pairwise_ok cosine).
Local Abbreviation analyze := (analyze_bug pairwise_ok cosine str_).
Local Abbreviation health := (health_check round_ str_).
Local Abbreviation metrics := (get_metrics round_).
Local Abbreviation serve1 := (serve pairwise_ok cosine round_ str_).
Local Abbreviation serve_many := (serve_all pairwise_ok cosine round_ str_).

Lemma analyze_bug_unfold (bug_report : BugReport) (app : App) :
  exists answer,
    find bug_report (ai_engine app) = (Ok answer, ai_engine app) /\
    analyze bug_report app =
      match answer with
      | Some found =>
          (Return found,
           mkApp (request_count app + 1) (error_count app)
                 (analyze_bug_count app + 1) (ai_engine app))
      | None =>
          (Throw (HTTPException 500
             "Internal server error occurred while analyzing the bug report"),
           mkApp (request_count app + 1) (error_count app + 1)
                 (analyze_bug_count app + 1) (ai_engine app))
      end.
Proof.
  assert (Hfind : exists answer,
            find bug_report (ai_engine app) = (Ok answer, ai_engine app)).
  { destruct (find_solution_cases pairwise_ok cosine bug_report (ai_engine app))
      as [[_ E]|[(_ & _ & E)|(_ & i & sim & _ & E)]]; rewrite E; eauto. }
  destruct Hfind as [answer Hfind].
  exists answer. split; [exact Hfind|].
  unfold analyze_bug. run_handler. rewrite Hfind.
  destruct answer; reflexivity.
Qed.


Lemma serve_counters (req : request) (app : App) :
  request_count (serve1 req app)
    = (request_count app + if counted req then 1 else 0)%Z /\
  analyze_bug_count (serve1 req app)
    = (analyze_bug_count app + if is_analysis req then 1 else 0)%Z /\
  (error_count app <= error_count (serve1 req app)
     <= error_count app + if may_count_error req then 1 else 0)%Z /\
  ai_engine (serve1 req app) = ai_engine app.
Proof.
  destruct req as [|env|env|bug_report]; cbn [serve counted is_analysis may_count_error].
  - cbn. repeat split; lia.
  - unfold health_check. run_handler.
    destruct (virtual_memory env) as [mem|]; cbn; [|repeat split; lia].
    destruct (cpu_percent env) as [cpu|]; cbn; [|repeat split; lia].
    destruct (gtb (fst mem) 90 || gtb cpu 95); cbn; repeat split; lia.
  - unfold get_metrics. run_handler.
    destruct (virtual_memory env) as [mem|]; cbn; [|repeat split; lia].
    destruct (cpu_percent env) as [cpu|]; cbn; [|repeat split; lia].
    destruct (disk_usage env) as [disk|]; cbn; repeat split; lia.
  - destruct (analyze_bug_unfold bug_report app) as (answer & _ & ->).
    destruct answer; cbn; repeat split; lia.
Qed.

(** The counters account for the requests served: request_count grows
    by the number of requests other than the root page, which counts
    nothing; analyze_bug_count by the number of analysis requests;
    error_count never shrinks and grows by at most the number of health
    and analysis requests; the engine is never replaced. From the state
    at import time, 0 <= error_count <= request_count and
    0 <= analyze_bug_count <= request_count always hold. *)
Theorem serve_all_counters (reqs : list request) (app : App) :
  request_count (serve_many reqs app)
    = (request_count app + Z.of_nat (length (List.filter counted reqs)))%Z /\
  analyze_bug_count (serve_many reqs app)
    = (analyze_bug_count app + Z.of_nat (length (List.filter is_analysis reqs)))%Z /\
  (error_count app <= error_count (serve_many reqs app)
     <= error_count app + Z.of_nat (length (List.filter may_count_error reqs)))%Z /\
  ai_engine (serve_many reqs app) = ai_engine app /\
  (forall engine, app = started engine ->
     (0 <= error_count (serve_many reqs app) <= request_count (serve_many reqs app))%Z /\
     (0 <= analyze_bug_count (serve_many reqs app)
        <= request_count (serve_many reqs app))%Z).
Proof.
  assert (Hmain : forall a,
    request_count (serve_many reqs a)
      = (request_count a + Z.of_nat (length (List.filter counted reqs)))%Z /\
    analyze_bug_count (serve_many reqs a)
      = (analyze_bug_count a + Z.of_nat (length (List.filter is_analysis reqs)))%Z /\
    (error_count a <= error_count (serve_many reqs a)
       <= error_count a + Z.of_nat (length (List.filter may_count_error reqs)))%Z /\
    ai_engine (serve_many reqs a) = ai_engine a).
  { unfold serve_all.
    induction reqs as [|req reqs IH]; intros a; cbn [foldl List.filter].
    - cbn [length]. repeat split; lia.
    - destruct (IH (serve1 req a)) as (Hr1 & Ha1 & He1 & Hg1).
      destruct (serve_counters req a) as (Hr & Ha & He & Hg).
      rewrite Hr1, Ha1, Hg1, Hr, Ha, Hg.
      destruct (counted req), (is_analysis req), (may_count_error req);
        cbn [length]; repeat split; lia. }
  destruct (Hmain app) as (Hr & Ha & He & Hg).
  repeat (split; [assumption|]).
  intros engine ->. cbn [started request_count error_count analyze_bug_count] in *.
  assert (Hsub : forall f g : request -> bool,
            (forall req, f req = true -> g req = true) ->
            (length (List.filter f reqs) <= length (List.filter g reqs))%nat).
  { intros f g Hfg. clear -Hfg.
    induction reqs as [|req reqs IH]; [reflexivity|].
    cbn [List.filter].
    destruct (f req) eqn:Ef.
    - rewrite (Hfg req Ef). cbn [length]. lia.
    - destruct (g req); cbn [length]; lia. }
  assert (length (List.filter may_count_error reqs)
          <= length (List.filter counted reqs))%nat
    by (apply Hsub; intros []; cbn; congruence).
  assert (length (List.filter is_analysis reqs)
          <= length (List.filter counted reqs))%nat
    by (apply Hsub; intros []; cbn; congruence).
  rewrite Hr, Ha. lia.
Qed.

Ltac lookup_dict :=
  unfold dict_get, dict;
  cbn [list_to_map foldr uncurry fst snd];
  repeat (rewrite ?lookup_insert_eq, ?lookup_insert_ne, ?lookup_empty by done).

(** When both probes answer, [health_check] returns a body and counts
    the request and no error. The status is "degraded" exactly when the
    memory use exceeds 90 percent or the CPU use exceeds 95 percent;
    then the body has a list of warnings, not empty, that names the
    memory exactly when it is above 90 and the CPU exactly when it is
    above 95. Otherwise the status is "healthy" and there is no warnings
    entry. The total that the demo shows from this body includes the
    health request itself. *)
Theorem health_check_status (env : Readings) (app : App) (mem avail cpu : R) :
  virtual_memory env = Ok (mem, avail) ->
  cpu_percent env = Ok cpu ->
  exists body,
    health env app =
      (Return body, mkApp (request_count app + 1) (error_count app)
                      (analyze_bug_count app) (ai_engine app)) /\
    (mem > 90 \/ cpu > 95 ->
     body !! "status" = Some (PStr "degraded") /\
     exists warnings,
       body !! "warnings" = Some (PList warnings) /\ warnings <> [] /\
       (PStr "High memory usage" ∈ warnings <-> mem > 90) /\
       (PStr "High CPU usage" ∈ warnings <-> cpu > 95)) /\
    (~ (mem > 90 \/ cpu > 95) ->
     body !! "status" = Some (PStr "healthy") /\ body !! "warnings" = None) /\
    exists status,
      body !! "status" = Some status /\
      health_columns body
      = Ok (status, PFloat (round_ (uptime env) 2), PInt (request_count app + 1)).
Proof.
  intros Hm Hc. unfold health_check. run_handler. rewrite Hm, Hc. cbn [fst snd].
  unfold gtb.
  destruct (Rgt_dec mem 90) as [Hmem|Hmem], (Rgt_dec cpu 95) as [Hcpu|Hcpu];
    cbn [orb]; eexists; (split; [reflexivity|]).
  - split; [intros _|split; [intros H; exfalso; apply H; auto|]].
    + split; [lookup_dict; reflexivity|].
      eexists. split; [lookup_dict; reflexivity|].
      split; [discriminate|]. split; (split; [intros _; assumption|intros _]);
        set_solver.
    + eexists. split; [lookup_dict; reflexivity|].
      unfold health_columns. lookup_dict. reflexivity.
  - split; [intros _|split; [intros H; exfalso; apply H; auto|]].
    + split; [lookup_dict; reflexivity|].
      eexists. split; [lookup_dict; reflexivity|].
      split; [discriminate|]. split.
      * split; [intros _; assumption|intros _; set_solver].
      * split; [|intros H; contradiction].
        cbn. intros H. apply list_elem_of_singleton in H. discriminate.
    + eexists. split; [lookup_dict; reflexivity|].
      unfold health_columns. lookup_dict. reflexivity.
  - split; [intros _|split; [intros H; exfalso; apply H; auto|]].
    + split; [lookup_dict; reflexivity|].
      eexists. split; [lookup_dict; reflexivity|].
      split; [discriminate|]. split.
      * split; [|intros H; contradiction].
        cbn. intros H. apply list_elem_of_singleton in H. discriminate.
      * split; [intros _; assumption|intros _; set_solver].
    + eexists. split; [lookup_dict; reflexivity|].
      unfold health_columns. lookup_dict. reflexivity.
  - split; [intros [H|H]; contradiction|split; [intros _|]].
    + split; lookup_dict; reflexivity.
    + eexists. split; [lookup_dict; reflexivity|].
      unfold health_columns. lookup_dict. reflexivity.
Qed.

(** When a probe of [health_check] raises, the handler counts the
    request and an error and raises status 500 with the text of the
    error in the detail. *)
Theorem health_check_failure (env : Readings) (app : App) (e : exn) :
  virtual_memory env = Raise e \/
  (exists memory_usage, virtual_memory env = Ok memory_usage /\
                        cpu_percent env = Raise e) ->
  health env app =
    (Throw (HTTPException 500 ("Health check failed: " +:+ str_ (Other e))),
     mkApp (request_count app + 1) (error_count app + 1)
           (analyze_bug_count app) (ai_engine app)).
Proof.
  intros [Hm|(memory_usage & Hm & Hc)]; unfold health_check; run_handler.
  - rewrite Hm. reflexivity.
  - rewrite Hm, Hc. reflexivity.
Qed.

(** When a probe of [get_metrics] raises, the error of the first failing
    probe leaves the handler as it is: there is no [try], the request is
    counted and the error counter is not. *)
Theorem get_metrics_failure (env : Readings) (app : App) (e : exn) :
  virtual_memory env = Raise e \/
  (exists memory_usage, virtual_memory env = Ok memory_usage /\
     (cpu_percent env = Raise e \/
      exists cpu_usage, cpu_percent env = Ok cpu_usage /\
                        disk_usage env = Raise e)) ->
  metrics env app =
    (Throw (Other e),
     mkApp (request_count app + 1) (error_count app)
           (analyze_bug_count app) (ai_engine app)).
Proof.
  intros [Hm|(memory_usage & Hm & [Hc|(cpu_usage & Hc & Hd)])];
    unfold get_metrics; run_handler.
  - rewrite Hm. reflexivity.
  - rewrite Hm, Hc. reflexivity.
  - rewrite Hm, Hc, Hd. reflexivity.
Qed.

(** With counters as the API keeps them (not negative, no more errors
    than requests), a successful [get_metrics] reports the total with
    the metrics request itself included, so the rates divide by that
    total: success_rate and error_rate_percent are the roundings of two
    percentages between 0 and 100 that add up to 100. *)
Theorem get_metrics_rates (env : Readings) (app : App)
    (memory_usage : R * R) (cpu_usage disk : R) :
  (0 <= error_count app <= request_count app)%Z ->
  virtual_memory env = Ok memory_usage ->
  cpu_percent env = Ok cpu_usage ->
  disk_usage env = Ok disk ->
  let total := (request_count app + 1)%Z in
  let success := IZR (total - error_count app) / IZR total * 100 in
  let failure := IZR (error_count app) / IZR total * 100 in
  exists body requests performance,
    metrics env app =
      (Return body, mkApp total (error_count app)
                      (analyze_bug_count app) (ai_engine app)) /\
    body !! "requests" = Some requests /\
    body !! "performance" = Some performance /\
    json_get requests "total" PNone = Ok (PInt total) /\
    json_get requests "success_rate" PNone = Ok (PFloat (round_ success 2)) /\
    json_get performance "error_rate_percent" PNone
      = Ok (PFloat (round_ failure 2)) /\
    0 <= success <= 100 /\ 0 <= failure <= 100 /\ success + failure = 100.
Proof.
  intros Hcount Hm Hc Hd total success failure.
  unfold get_metrics. run_handler. rewrite Hm, Hc, Hd. cbn [fst snd].
  assert (Hmax : Z.max (request_count app + 1) 1 = total) by (unfold total; lia).
  rewrite Hmax. fold total.
  eexists _, _, _. split; [reflexivity|].
  split; [lookup_dict; reflexivity|].
  split; [lookup_dict; reflexivity|].
  split; [reflexivity|]. split; [reflexivity|]. split; [reflexivity|].
  assert (Htotal : 0 < IZR total) by (apply IZR_lt; unfold total; lia).
  assert (Herr : 0 <= IZR (error_count app) <= IZR total).
  { split; apply IZR_le; unfold total; lia. }
  assert (Hsum : success + failure = 100).
  { unfold success, failure. rewrite minus_IZR. field. lra. }
  assert (Hfail : 0 <= failure <= 100).
  { unfold failure. split.
    - apply Rmult_le_pos; [|lra].
      apply Rmult_le_pos; [lra|]. left. apply Rinv_0_lt_compat, Htotal.
    - assert (IZR (error_count app) / IZR total <= 1).
      { apply (Rmult_le_reg_r (IZR total)); [exact Htotal|].
        unfold Rdiv. rewrite Rmult_assoc, Rinv_l by lra. lra. }
      lra. }
  repeat split; lra.
Qed.

(** The "API Performance" columns of the demo never show the counters:
    the body of [get_metrics] has no "api" entry and its "performance"
    entry has no "avg_response_time_ms", so the four columns read their
    default 0 from every metrics response. *)
Theorem metrics_columns_default (env : Readings) (app : App)
    (body : gmap string pyval) :
  fst (metrics env app) = Return body ->
  metrics_columns body = Ok (PInt 0, PInt 0, PInt 0, PInt 0).
Proof.
  unfold get_metrics. run_handler.
  destruct (virtual_memory env) as [memory_usage|]; cbn [fst]; [|discriminate].
  destruct (cpu_percent env) as [cpu_usage|]; cbn [fst]; [|discriminate].
  destruct (disk_usage env) as [disk|]; cbn [fst]; [|discriminate].
  intros H. injection H as <-.
  unfold metrics_columns. lookup_dict. reflexivity.
Qed.

End ApiFacts.

(** ** The engine on concrete inputs *)

Module FixtureFacts.
Import Fixture.

Lemma engine_started :
  __init__ (fun _ => Ok letter_model) None (Ok tt) (fun _ => Ok tt) blank
  = (Ok tt, engine).
Proof. reflexivity. Qed.

Lemma incomplete_engine_started :
  __init__ (fun _ => Ok letter_model) (Some (Ok [incomplete_example])) (Ok tt)
    (fun _ => Ok tt) blank
  = (Ok tt, incomplete_engine).
Proof. reflexivity. Qed.

Lemma best_match_engine (r : BugReport) :
  description r = description crash_report ->
  best_match always_ok product r engine = Ok (1%nat, 1 * 0.9).
Proof.
  intros Hd.
  unfold best_match, cosine_similarity, engine, always_ok, product.
  rewrite Hd.
  change (letter_embedding (PStr (description crash_report))) with [1].
  cbn [model example_embeddings model_encode encode letter_model rbind
       fmap list_fmap index lookup list_lookup hd np_argmax argmax_scan].
  change (letter_embedding (PStr (description crash_report))) with [1].
  cbn [hd].
  destruct (Rlt_dec (1 * 0.2) (1 * 0.9)) as [_|H]; [|exfalso; lra].
  destruct (Rlt_dec (1 * 0.9) (1 * 0.9)) as [H|_]; [exfalso; lra|].
  reflexivity.
Qed.

Lemma best_match_incomplete_engine (r : BugReport) :
  description r = description crash_report ->
  best_match always_ok product r incomplete_engine = Ok (0%nat, 1 * 0.9).
Proof.
  intros Hd. unfold best_match. rewrite Hd. reflexivity.
Qed.

Lemma confident (r : BugReport) : _calculate_confidence (1 * 0.9) r > 0.5.
Proof. apply confidence_gt_half_iff. lra. Qed.

Lemma format_default_example (c s : R) :
  exists sol,
    rbind (index (examples engine) 1)
      (fun ex => _format_solution ex c s) = Ok sol /\
    sol_title sol = PStr "Fix useEffect Infinite Loop".
Proof.
  unfold engine, _get_default_examples, index.
  cbn [examples lookup list_lookup rbind].
  eexists. split.
  - apply _format_solution_Ok.
    eexists _, _, _, _. repeat split; reflexivity.
  - reflexivity.
Qed.

Lemma find_solution_engine (r : BugReport) :
  description r = description crash_report ->
  exists sol,
    find_solution always_ok product r engine = (Ok (Some sol), engine) /\
    sol_title sol = PStr "Fix useEffect Infinite Loop".
Proof.
  intros Hd.
  rewrite (find_solution_scored _ _ r engine 1 (1 * 0.9) eq_refl
             (best_match_engine r Hd)).
  destruct (Rgt_dec _ _) as [_|H]; [|exfalso; apply H, confident].
  destruct (format_default_example (_calculate_confidence (1 * 0.9) r) (1 * 0.9))
    as (sol & -> & Ht).
  exists sol. auto.
Qed.

Lemma find_solution_incomplete_engine (r : BugReport) :
  description r = description crash_report ->
  find_solution always_ok product r incomplete_engine
    = (Ok None, incomplete_engine).
Proof.
  intros Hd.
  rewrite (find_solution_scored _ _ r incomplete_engine 0 (1 * 0.9) eq_refl
             (best_match_incomplete_engine r Hd)).
  destruct (Rgt_dec _ _) as [_|_]; reflexivity.
Qed.

End FixtureFacts.

(** ** The claims on concrete inputs *)

Import Fixture FixtureFacts.

(** C1 as stated fails: on an engine whose matched example has no
    [code_example] the computed confidence exceeds 0.5 and [find_solution]
    returns [None]. *)
Lemma find_solution_threshold_counterexample :
  ~ (forall i sim,
       best_match always_ok product crash_report incomplete_engine = Ok (i, sim) ->
       (_calculate_confidence sim crash_report > 0.5 <->
        exists sol,
          fst (find_solution always_ok product crash_report incomplete_engine)
          = Ok (Some sol))).
Proof.
  intros H.
  destruct (H 0%nat (1 * 0.9) (best_match_incomplete_engine crash_report eq_refl))
    as [Hsol _].
  destruct (Hsol (confident crash_report)) as [sol Hfind].
  rewrite find_solution_incomplete_engine in Hfind by reflexivity. discriminate.
Qed.

Lemma find_solution_threshold_witness :
  unavailable engine = false /\
  best_match always_ok product crash_report engine = Ok (1%nat, 1 * 0.9) /\
  _calculate_confidence (1 * 0.9) crash_report > 0.5 /\
  exists sol,
    find_solution always_ok product crash_report engine = (Ok (Some sol), engine).
Proof.
  split; [reflexivity|].
  split; [apply best_match_engine; reflexivity|].
  split; [apply confident|].
  destruct (find_solution_threshold always_ok product crash_report engine)
    as (_ & _ & H).
  destruct (H 1%nat (1 * 0.9) eq_refl (best_match_engine crash_report eq_refl)) as [Hsol _].
  destruct (format_default_example
              (_calculate_confidence (1 * 0.9) crash_report) (1 * 0.9))
    as (sol & Hf & _).
  exists sol. apply Hsol.
  split; [apply confident|].
  unfold index in Hf.
  destruct (examples engine !! 1%nat) as [ex|]; [|discriminate].
  exists ex. auto.
Defined.

Lemma find_solution_argmax_witness :
  exists sol,
    find_solution always_ok product crash_report engine = (Ok (Some sol), engine) /\
    exists m embs q qs i best_embedding ex,
      model_loaded engine = true /\
    model engine = Some m /\ example_embeddings engine = Some embs /\
      encode m [PStr (description crash_report)] = Ok (q :: qs) /\
      np_argmax (product q <$> embs) = Ok i /\
      embs !! i = Some best_embedding /\
      examples engine !! i = Some ex /\
      _format_solution ex
        (_calculate_confidence (product q best_embedding) crash_report)
        (product q best_embedding) = Ok sol /\
      forall j other, embs !! j = Some other ->
        product q other <= product q best_embedding /\
        ((j < i)%nat -> product q other < product q best_embedding).
Proof.
  destruct (find_solution_engine crash_report eq_refl) as (sol & Hfind & _).
  exists sol. split; [exact Hfind|].
  exact (find_solution_argmax always_ok product crash_report engine engine sol Hfind).
Defined.

Lemma find_solution_populates_witness :
  exists sol,
    find_solution always_ok product crash_report engine = (Ok (Some sol), engine) /\
    sol_title sol = PStr "Fix useEffect Infinite Loop" /\
    sol_source sol = PStr "React Hooks Documentation" /\
    sol_tags sol = strs ["react"; "useEffect"; "hooks"; "infinite-loop"] /\
    sol_confidence sol = _calculate_confidence (1 * 0.9) crash_report /\
    sol_similarity_score sol = 1 * 0.9.
Proof.
  destruct (find_solution_engine crash_report eq_refl) as (sol & Hfind & _).
  exists sol. split; [exact Hfind|].
  destruct (find_solution_populates always_ok product crash_report engine engine
              sol Hfind)
    as (i & sim & ex & Eb & Eex & Ht & _ & _ & Hsr & Htags & _ & Hc & Hs).
  rewrite best_match_engine in Eb by reflexivity.
  injection Eb as <- <-.
  unfold engine, _get_default_examples in Eex. cbn [examples lookup list_lookup] in Eex.
  injection Eex as <-.
  split; [|split; [|split; [|split]]].
  - assert (E : Some (sol_title sol) = Some (PStr "Fix useEffect Infinite Loop"))
      by (rewrite <- Ht; reflexivity).
    injection E as ->. reflexivity.
  - assert (E : Some (sol_source sol) = Some (PStr "React Hooks Documentation"))
      by (rewrite <- Hsr; reflexivity).
    injection E as ->. reflexivity.
  - apply Htags. reflexivity.
  - exact Hc.
  - exact Hs.
Defined.

Lemma find_solution_description_only_witness :
  description crash_report = description crash_report_detailed /\
  find_solution always_ok product crash_report engine
  = find_solution always_ok product crash_report_detailed engine.
Proof.
  split; [reflexivity|].
  apply find_solution_description_only. reflexivity.
Defined.

Lemma find_solution_never_raises_witness :
  best_match always_ok product crash_report incomplete_engine = Ok (0%nat, 1 * 0.9) /\
  examples incomplete_engine !! 0%nat = Some incomplete_example /\
  incomplete_example !! "code_example" = None /\
  fst (find_solution always_ok product crash_report incomplete_engine) = Ok None.
Proof.
  split; [reflexivity|].
  split; [reflexivity|].
  split; [reflexivity|].
  destruct (find_solution_never_raises always_ok product crash_report
              incomplete_engine) as (_ & _ & _ & H).
  apply (H 0%nat (1 * 0.9) incomplete_example "code_example"); try reflexivity.
  set_solver.
Defined.

Lemma examples_immutable_witness :
  @None (result (list (gmap string pyval))) = None /\
  examples
    (perform_all (Ok tt) (fun _ => Ok tt) always_ok product
       [UpdateEmbeddings; FindSolution crash_report; GetExamples; GetModelStatus]
       (snd (__init__ (fun _ => Ok letter_model) None (Ok tt) (fun _ => Ok tt)
               blank)))
  = _get_default_examples.
Proof.
  split; [reflexivity|].
  apply (examples_immutable (fun _ => Ok letter_model) None (Ok tt)
           (fun _ => Ok tt) always_ok product _ blank).
  reflexivity.
Defined.

Lemma BugReport_required_fields_witness :
  (forall s, strict_str (PStr s) = Some s) /\
  BugReport_init strict_int strict_str strict_int strict_bool 0%Z
    (dict [("title", PStr "App crashes on login");
           ("description", PStr "It crashes.")])
  = Ok (report "App crashes on login" "It crashes.").
Proof.
  split; [reflexivity|].
  apply (BugReport_required_fields strict_int strict_str strict_int strict_bool 0%Z
           (fun s => eq_refl)).
Defined.

(** ** The further properties on concrete inputs *)

Import Probe.

Lemma update_embeddings_cache_witness :
  model_loaded engine = true /\ examples engine <> [] /\
  examples (snd (update_embeddings (Ok tt) (fun _ => Ok tt) engine))
  = _get_default_examples /\
  example_embeddings (snd (update_embeddings (Ok tt) (fun _ => Ok tt) engine))
  = Some [[0.2]; [0.9]; [0.9]].
Proof.
  split; [reflexivity|]. split; [discriminate|].
  destruct (update_embeddings_cache (Ok tt) (fun _ => Ok tt) engine)
    as (_ & _ & Hex & _ & _ & H).
  split; [exact Hex|].
  apply (H eq_refl); [discriminate|].
  eexists. split.
  - unfold engine, _get_default_examples. cbn [examples].
    repeat (constructor; [reflexivity|]). constructor.
  - split; [reflexivity|]. split; reflexivity.
Defined.

Lemma __init___outcome_witness :
  offline "all-MiniLM-L6-v2" = Raise (OtherError "offline") /\
  find_solution always_ok product crash_report
    (snd (__init__ offline None (Ok tt) (fun _ => Ok tt) blank))
  = (Ok None, snd (__init__ offline None (Ok tt) (fun _ => Ok tt) blank)).
Proof.
  split; [reflexivity|].
  destruct (__init___outcome offline None (Ok tt) (fun _ => Ok tt)
              always_ok product) as (_ & _ & H & _).
  apply (H (OtherError "offline") crash_report); [discriminate|reflexivity].
Defined.

Lemma get_model_status_gates_witness :
  exists status,
    fst (get_model_status unsaved_engine) = Ok status /\
    status !! "model_loaded" = Some (PBool true) /\
    status !! "embeddings_ready" = Some (PBool false) /\
    status !! "examples_count" = Some (PInt 3) /\
    find_solution always_ok product crash_report unsaved_engine
    = (Ok None, unsaved_engine).
Proof.
  eexists. split; [reflexivity|].
  split; [reflexivity|]. split; [reflexivity|]. split; [reflexivity|].
  destruct (get_model_status_gates always_ok product unsaved_engine _ eq_refl)
    as (_ & _ & _ & H).
  apply H. right. discriminate.
Defined.

Lemma default_examples_formattable : Forall formattable _get_default_examples.
Proof.
  unfold _get_default_examples.
  repeat (constructor; [repeat split; discriminate|]). constructor.
Qed.

Lemma find_solution_threshold_formattable_witness :
  unavailable engine = false /\
  Forall formattable (examples engine) /\
  best_match always_ok product crash_report engine = Ok (1%nat, 1 * 0.9) /\
  (1 * 0.9 > 0.5 <->
   exists sol,
     find_solution always_ok product crash_report engine = (Ok (Some sol), engine)).
Proof.
  split; [reflexivity|].
  split; [apply default_examples_formattable|].
  split; [apply best_match_engine; reflexivity|].
  apply (find_solution_threshold_formattable always_ok product crash_report
           engine 1%nat (1 * 0.9)).
  - reflexivity.
  - apply default_examples_formattable.
  - intros embs H. injection H as <-. cbn. lia.
  - apply best_match_engine. reflexivity.
Defined.

Lemma find_solution_confident_witness :
  exists sol,
    find_solution always_ok product crash_report engine = (Ok (Some sol), engine) /\
    sol_similarity_score sol > 0.5 /\
    0.5 < sol_confidence sol < 1 /\
    sol_confidence sol = sigmoid (sol_similarity_score sol).
Proof.
  destruct (find_solution_engine crash_report eq_refl) as (sol & Hfind & _).
  exists sol. split; [exact Hfind|].
  exact (find_solution_confident always_ok product crash_report engine engine
           sol Hfind).
Defined.

Lemma BugReport_init_ignores_unknown_witness :
  ("tech_stack" ∉ ["id"; "title"; "description"; "steps_to_reproduce";
                   "expected_behavior"; "actual_behavior"; "code_snippet";
                   "language"; "created_at"; "resolved"]) /\
  BugReport_init strict_int strict_str strict_int strict_bool 0%Z
    (<["tech_stack" := PStr "react"]>
       (dict [("title", PStr "App crashes on login");
              ("description", PStr "It crashes.")]))
  = BugReport_init strict_int strict_str strict_int strict_bool 0%Z
      (dict [("title", PStr "App crashes on login");
             ("description", PStr "It crashes.")]).
Proof.
  assert (H : "tech_stack" ∉ ["id"; "title"; "description"; "steps_to_reproduce";
                  "expected_behavior"; "actual_behavior"; "code_snippet";
                  "language"; "created_at"; "resolved"]).
  { intros H. repeat (apply elem_of_cons in H as [H|H]; [discriminate|]).
    inversion H. }
  split; [exact H|].
  apply BugReport_init_ignores_unknown, H.
Defined.

Lemma bug_data_constructs_witness :
  (forall s, strict_str (PStr s) = Some s) /\
  exists data,
    bug_data "App crashes on login" "It crashes." "" "react" = Some data /\
    BugReport_init strict_int strict_str strict_int strict_bool 0%Z data
    = Ok (mkBugReport None "App crashes on login" "It crashes." None None None
            None (Some "react") (Some 0%Z) false).
Proof.
  split; [reflexivity|].
  eexists. split; [reflexivity|].
  apply (proj2 (bug_data_constructs strict_int strict_str strict_int strict_bool
                  0%Z (fun s => eq_refl)
                  "App crashes on login" "It crashes." "" "react")).
  reflexivity.
Defined.


Lemma serve_all_counters_witness :
  let app := serve_all always_ok product unrounded text
               [GetRoot; GetHealth blind; GetMetrics calm;
                PostAnalyzeBug crash_report]
               (started incomplete_engine) in
  started incomplete_engine = started incomplete_engine /\
  request_count app = 3%Z /\ analyze_bug_count app = 1%Z /\
  (0 <= error_count app <= request_count app)%Z.
Proof.
  intros app. split; [reflexivity|].
  destruct (serve_all_counters always_ok product unrounded text
              [GetRoot; GetHealth blind; GetMetrics calm;
               PostAnalyzeBug crash_report]
              (started incomplete_engine)) as (Hr & Ha & _ & _ & H).
  split; [exact Hr|]. split; [exact Ha|].
  exact (proj1 (H incomplete_engine eq_refl)).
Defined.

Lemma health_check_status_witness :
  virtual_memory busy = Ok (95, 1048576) /\ cpu_percent busy = Ok 10 /\
  exists body,
    fst (health_check unrounded text busy (started engine)) = Return body /\
    body !! "status" = Some (PStr "degraded") /\
    body !! "warnings" = Some (PList [PStr "High memory usage"]).
Proof.
  split; [reflexivity|]. split; [reflexivity|].
  destruct (health_check_status unrounded text busy (started engine)
              95 1048576 10 eq_refl eq_refl)
    as (body & Hbody & Hdegraded & _ & _).
  exists body. rewrite Hbody. split; [reflexivity|].
  destruct Hdegraded as (Hstatus & warnings & Hw & _ & _ & _); [left; lra|].
  split; [exact Hstatus|].
  rewrite Hw. f_equal. f_equal.
  revert Hbody Hw. unfold health_check. run_handler. cbn [busy virtual_memory cpu_percent fst snd].
  unfold gtb.
  destruct (Rgt_dec 95 90) as [_|Hn]; [|exfalso; lra].
  destruct (Rgt_dec 10 95) as [Hn|_]; [exfalso; lra|].
  cbn [orb]. intros Hbody. injection Hbody as <-.
  unfold dict. cbn [list_to_map foldr uncurry fst snd].
  rewrite lookup_insert_eq. intros Hw. injection Hw as <-. reflexivity.
Defined.

Lemma health_check_failure_witness :
  virtual_memory blind = Raise OSError /\
  health_check unrounded text blind (started engine)
  = (Throw (HTTPException 500 "Health check failed: error"),
     mkApp 1 1 0 engine).
Proof.
  split; [reflexivity|].
  apply (health_check_failure unrounded text blind (started engine) OSError).
  left. reflexivity.
Defined.

Lemma get_metrics_failure_witness :
  virtual_memory blind = Raise OSError /\
  get_metrics unrounded blind (started engine)
  = (Throw (Other OSError), mkApp 1 0 0 engine).
Proof.
  split; [reflexivity|].
  apply (get_metrics_failure unrounded blind (started engine) OSError).
  left. reflexivity.
Defined.

Lemma get_metrics_rates_witness :
  (0 <= error_count (mkApp 3 1 1 engine) <= request_count (mkApp 3 1 1 engine))%Z /\
  exists body requests,
    fst (get_metrics unrounded calm (mkApp 3 1 1 engine)) = Return body /\
    body !! "requests" = Some requests /\
    json_get requests "total" PNone = Ok (PInt 4) /\
    json_get requests "success_rate" PNone
      = Ok (PFloat (IZR (4 - 1) / IZR 4 * 100)).
Proof.
  split; [cbn; lia|].
  destruct (get_metrics_rates unrounded calm (mkApp 3 1 1 engine)
              (42.5, 8589934592) 10 55)
    as (body & requests & performance & Hbody & Hr & _ & Ht & Hs & _);
    [cbn; lia|reflexivity..|].
  exists body, requests. rewrite Hbody.
  split; [reflexivity|]. split; [exact Hr|]. split; [exact Ht|exact Hs].
Defined.

Lemma metrics_columns_default_witness :
  exists body,
    fst (get_metrics unrounded calm (mkApp 3 1 1 engine)) = Return body /\
    metrics_columns body = Ok (PInt 0, PInt 0, PInt 0, PInt 0).
Proof.
  eexists. split; [reflexivity|].
  apply (metrics_columns_default unrounded calm (mkApp 3 1 1 engine)).
  reflexivity.
Defined.
